(** * Product review analyzer (app.py): a shallow embedding and its properties

    The program is a Streamlit script: it loads a CSV into a pandas
    DataFrame, picks the column holding the review text, sends one prompt
    per row to a text-generation service and offers the collected results
    as a CSV download.

    Conventions of the embedding.
    - A Python [str] is a [string] holding its UTF-8 encoding, so that
      [.encode("utf-8")] is the byte view of the same sequence.
    - A cell of a DataFrame is a [value]: text, an integer, a float (kept
      by its [repr], no arithmetic is ever done on cells) or NaN.
    - Exceptions are values of [exn]; code that can raise returns a
      [result].
    - The outside world (the service, the clock, the page) is a state of
      an arbitrary type [W], threaded through the analysis loop. *)

From Stdlib Require Import List String Ascii ZArith Lia Bool DecimalString.
Import ListNotations.
Local Open Scope string_scope.

(** ** Python strings *)

Definition nl : string := String "010" "".
Definition cr : string := String "013" "".
Definition dquote : string := String "034" "".

(** [str.isspace] on one-byte characters: U+0009..U+000D, U+001C..U+0020. *)
Definition space1 (a : ascii) : bool :=
  let x := N_of_ascii a in
  ((9 <=? x) && (x <=? 13) || (28 <=? x) && (x <=? 32))%N.

(** U+0085 and U+00A0, encoded as C2 85 and C2 A0. *)
Definition space2 (a b : ascii) : bool :=
  let x := N_of_ascii a in
  let y := N_of_ascii b in
  ((x =? 194) && ((y =? 133) || (y =? 160)))%N.

(** U+1680 (E1 9A 80), U+2000..U+200A (E2 80 80..8A), U+2028, U+2029,
    U+202F (E2 80 A8, A9, AF), U+205F (E2 81 9F), U+3000 (E3 80 80). *)
Definition space3 (a b c : ascii) : bool :=
  let x := N_of_ascii a in
  let y := N_of_ascii b in
  let z := N_of_ascii c in
  ((x =? 225) && (y =? 154) && (z =? 128)
   || (x =? 226) && (y =? 128)
      && ((128 <=? z) && (z <=? 138) || (z =? 168) || (z =? 169) || (z =? 175))
   || (x =? 226) && (y =? 129) && (z =? 159)
   || (x =? 227) && (y =? 128) && (z =? 128))%N.

(** Removal of the whitespace characters at the front of a byte sequence.
    [s2] and [s3] recognise the two-byte and three-byte whitespace
    characters in the order in which their bytes are met. *)
Fixpoint lstrip_with (s2 : ascii -> ascii -> bool)
    (s3 : ascii -> ascii -> ascii -> bool) (l : list ascii) : list ascii :=
  match l with
  | a :: r =>
      if space1 a then lstrip_with s2 s3 r
      else match r with
           | b :: r2 =>
               if s2 a b then lstrip_with s2 s3 r2
               else match r2 with
                    | c :: r3 => if s3 a b c then lstrip_with s2 s3 r3 else l
                    | [] => l
                    end
           | [] => l
           end
  | [] => l
  end.

Definition lstrip_bytes : list ascii -> list ascii := lstrip_with space2 space3.

(** The same from the back: the sequence is reversed, so the bytes of a
    character are met last byte first. *)
Definition rstrip_bytes (l : list ascii) : list ascii :=
  rev (lstrip_with (fun b a => space2 a b) (fun c b a => space3 a b c) (rev l)).

(** [str.strip()] without argument. *)
Definition strip (s : string) : string :=
  string_of_list_ascii (rstrip_bytes (lstrip_bytes (list_ascii_of_string s))).

(** [str(n)] for an integer. *)
Definition str_of_int (n : Z) : string := NilZero.string_of_int (Z.to_int n).

(** [sep.join(l)]. *)
Fixpoint join (sep : string) (l : list string) : string :=
  match l with
  | [] => ""
  | [x] => x
  | x :: r => x ++ sep ++ join sep r
  end.

Fixpoint concat_all (l : list string) : string :=
  match l with
  | [] => ""
  | x :: r => x ++ concat_all r
  end.

(** [s1.startswith(s2)] is [String.prefix s2 s1]. *)
Definition startswith (s pre : string) : bool := String.prefix pre s.

(** ** Cells, rows and frames *)

Inductive value : Type :=
| VStr (s : string)
| VInt (n : Z)
| VFloat (repr : string)
| VNaN.

(** What [{v}] in an f-string (that is [format(v, "")]) produces. *)
Definition format (v : value) : string :=
  match v with
  | VStr s => s
  | VInt n => str_of_int n
  | VFloat r => r
  | VNaN => "nan"
  end.

Inductive exn : Type :=
| KeyError (key : string)
| TypeError
| StreamlitAPIException.

Inductive result (A : Type) : Type :=
| Ok (a : A)
| Raise (e : exn).
Arguments Ok {A} a.
Arguments Raise {A} e.

(** A dict with string keys, and a row of a frame (a Series whose index is
    the column names): both keep their insertion order. *)
Definition dict : Type := list (string * value).
Definition Series : Type := list (string * value).

(** [row[key]]: raises KeyError when the label is absent. *)
Fixpoint getitem (row : Series) (key : string) : result value :=
  match row with
  | [] => Raise (KeyError key)
  | (k, v) :: r => if (k =? key)%string then Ok v else getitem r key
  end.

(** An index label: an integer or a text. (A float label is left out: what
    line 111 does with it is float arithmetic.) *)
Inductive label : Type :=
| LInt (i : Z)
| LStr (s : string).

(** The index of a frame: the default range 0, 1, 2, ... or explicit
    labels, as [read_csv] builds them from the first field of each line
    when the lines have one field more than the header. *)
Inductive Index : Type :=
| RangeIndex
| Labels (l : list label).

(** A frame: its column names, its index and, row by row, its cells as
    [iterrows] hands them over, that is the rows of [df.values] (a frame
    made of numeric columns only, one of them of floats, yields all its
    numbers as floats). *)
Record DataFrame : Type := {
  columns : list string;
  index : Index;
  data : list (list value)
}.

Definition is_text (v : value) : bool :=
  match v with VStr _ => true | _ => false end.

Definition is_floating (v : value) : bool :=
  match v with VFloat _ | VNaN => true | _ => false end.

(** The common type that pandas gives a group of cells: cells with a text
    among them are kept as objects; cells without text that hold a float
    or a missing value are all held as floats. *)
Definition floated (cells : list value) : bool :=
  negb (existsb is_text cells) && existsb is_floating cells.

(** The float of an integer, by the text Python prints for it; exact for
    integers up to 2^53 in absolute value. *)
Definition float_of_int (n : Z) : value := VFloat (str_of_int n ++ ".0").

(** A cell once its group is typed. *)
Definition typed (cells : list value) (v : value) : value :=
  if floated cells then
    match v with
    | VInt n => float_of_int n
    | _ => v
    end
  else v.

Fixpoint enumerate_from {A : Type} (i : nat) (l : list A) : list (nat * A) :=
  match l with
  | [] => []
  | x :: r => (i, x) :: enumerate_from (S i) r
  end.

(** The label of the row at position [k]; a frame has one label per row,
    and a position beyond the explicit labels is given its range label. *)
Definition label_at (idx : Index) (k : nat) : label :=
  match idx with
  | RangeIndex => LInt (Z.of_nat k)
  | Labels l => nth k l (LInt (Z.of_nat k))
  end.

(** [df.iterrows()]: the index label of each row and the row as a Series
    labelled by the column names. *)
Definition iterrows (df : DataFrame) : list (label * Series) :=
  map (fun kr => (label_at (index df) (fst kr), snd kr))
      (enumerate_from 0 (map (combine (columns df)) (data df))).

(** [len(df)]. *)
Definition len (df : DataFrame) : nat := List.length (data df).

(** ** Detection of the review column (app.py, lines 60-68) *)

Definition possible_review_cols : list string :=
  ["review"; "review_text"; "text"; "comment"].

(** [col in df.columns]. *)
Definition contains (cols : list string) (col : string) : bool :=
  existsb (String.eqb col) cols.

(** The [for col in possible_review_cols: if col in df.columns: ...; break]
    loop; [None] is the initial [review_col = None]. *)
Fixpoint first_present (candidates cols : list string) : option string :=
  match candidates with
  | [] => None
  | col :: rest =>
      if contains cols col then Some col else first_present rest cols
  end.

Definition detect_review_col (cols : list string) : option string :=
  first_present possible_review_cols cols.

(** ** The prompt (app.py, lines 86-95) *)

Inductive segment : Type :=
| Lit (s : string)
| Field (key : string).

(** Evaluation of an f-string whose replacement fields are [row[key]]:
    fields are evaluated left to right, the first missing label raises. *)
Fixpoint fstring (row : Series) (f : list segment) : result string :=
  match f with
  | [] => Ok ""
  | Lit s :: r =>
      match fstring row r with
      | Ok t => Ok (s ++ t)
      | Raise e => Raise e
      end
  | Field k :: r =>
      match getitem row k with
      | Ok v =>
          match fstring row r with
          | Ok t => Ok (format v ++ t)
          | Raise e => Raise e
          end
      | Raise e => Raise e
      end
  end.

(** The sixteen spaces in front of every line of the literal. *)
Definition indent : string := "                ".

(** U+2705, the check mark of the source text, as UTF-8. *)
Definition check_mark : string := String "226" (String "156" (String "133" "")).

Definition prompt_head : string :=
  nl ++ indent ++ "Analyze this Myntra product review:" ++ nl
     ++ indent ++ "Review: " ++ dquote.

Definition prompt_mid : string :=
  dquote ++ "  # " ++ check_mark ++ " Dynamic column" ++ nl
     ++ indent ++ "Rating: ".

Definition sentiment_line : string :=
  "1. Sentiment: (Positive / Negative / Neutral)".
Definition key_points_line : string :=
  "2. Key points: (Bullet list of 2-3 main pros/cons)".
Definition recommendation_line : string :=
  "3. Recommendation: (Yes / No / Maybe) - Brief reason".

Definition prompt_tail : string :=
  nl ++ nl
     ++ indent ++ "Provide a concise analysis in this exact format:" ++ nl
     ++ indent ++ sentiment_line ++ nl
     ++ indent ++ key_points_line ++ nl
     ++ indent ++ recommendation_line ++ nl
     ++ indent.

Definition prompt_template (review_col : string) : list segment :=
  [Lit prompt_head; Field review_col; Lit prompt_mid; Field "rating";
   Lit prompt_tail].

Definition build_prompt (review_col : string) (row : Series) : result string :=
  fstring row (prompt_template review_col).

(** ** The analysis loop (app.py, lines 79-116) *)

(** What [model.generate_content(prompt)] followed by [.text] yields: the
    text of the response, or an exception [e] of class [Exception] (the
    class that line 100 catches), kept by its [str(e)]. *)
Inductive reply : Type :=
| Text (text : string)
| Raises (detail : string).

(** The collaborators of the loop, acting on the outside world: the call
    to the service, the progress bar and status text once they accept
    [i + 1] out of [len(df)], and [time.sleep(0.5)]. *)
Record Env (W : Type) : Type := {
  generate_content : string -> W -> reply * W;
  show_progress : Z -> nat -> W -> W;
  sleep : W -> W
}.
Arguments generate_content {W} _ _ _.
Arguments show_progress {W} _ _ _ _.
Arguments sleep {W} _ _.

Definition error_prefix : string := "Error: Could not analyze review.".

(** The [try: ... except Exception as e: ...] of lines 97-101. *)
Definition analysis_of (r : reply) : string :=
  match r with
  | Text text => strip text
  | Raises detail => error_prefix ++ " (" ++ detail ++ ")"
  end.

Definition entry (pn rv rt : value) (analysis_text : string) : dict :=
  [("product_name", pn); ("review", rv); ("rating", rt);
   ("analysis", VStr analysis_text)].

(** Computations of the loop: they act on the world and may raise. *)
Definition M (W A : Type) : Type := W -> result A * W.

Definition ret {W A : Type} (a : A) : M W A := fun w => (Ok a, w).

Definition bind {W A B : Type} (m : M W A) (k : A -> M W B) : M W B :=
  fun w =>
    match m w with
    | (Ok a, w') => k a w'
    | (Raise e, w') => (Raise e, w')
    end.

Definition lift {W A : Type} (r : result A) : M W A := fun w => (r, w).

Definition act {W A : Type} (f : W -> A * W) : M W A :=
  fun w => let (a, w') := f w in (Ok a, w').

Definition effect {W : Type} (f : W -> W) : M W unit :=
  fun w => (Ok tt, f w).

Declare Scope loop_scope.
Delimit Scope loop_scope with loop.
Notation "x <- m ;; k" := (bind m (fun x => k))
  (at level 61, m at next level, right associativity) : loop_scope.
Notation "m ;;; k" := (bind m (fun _ => k))
  (at level 61, right associativity) : loop_scope.

Section Loop.
Context {W : Type}.
Variable env : Env W.

(** Lines 111-113: [i + 1] raises TypeError on a text label, and the
    progress bar refuses a fraction [(i + 1) / len(df)] below 0 or above 1
    (frames are taken to have fewer than 2^53 rows, so that the fraction
    is in range exactly when [0 <= i + 1 <= len(df)]). *)
Definition progress_step (i : label) (total : nat) : M W unit :=
  match i with
  | LStr _ => lift (Raise TypeError)
  | LInt z =>
      if ((0 <=? z + 1) && (z + 1 <=? Z.of_nat total))%Z
      then effect (show_progress env (z + 1) total)
      else lift (Raise StreamlitAPIException)
  end.

(** One iteration of [for i, row in df.iterrows()]; [results] is the
    list built so far and [total] is [len(df)]. *)
Definition analyze_row (review_col : string) (total : nat)
    (i : label) (row : Series) (results : list dict) : M W (list dict) :=
  (prompt <- lift (build_prompt review_col row) ;;
   r <- act (generate_content env prompt) ;;
   pn <- lift (getitem row "product_name") ;;
   rv <- lift (getitem row review_col) ;;
   rt <- lift (getitem row "rating") ;;
   progress_step i total ;;;
   effect (sleep env) ;;;
   ret (results ++ [entry pn rv rt (analysis_of r)])%list)%loop.

Fixpoint analyze_rows (review_col : string) (total : nat)
    (rows : list (label * Series)) (results : list dict) : M W (list dict) :=
  match rows with
  | [] => ret results
  | (i, row) :: rest =>
      (results' <- analyze_row review_col total i row results ;;
       analyze_rows review_col total rest results')%loop
  end.

(** [results = []] followed by the loop over [df.iterrows()]. *)
Definition analyze (review_col : string) (df : DataFrame) : M W (list dict) :=
  analyze_rows review_col (len df) (iterrows df) [].
End Loop.

(** ** The result table and its CSV form (app.py, lines 118 and 129) *)

(** Keys in the order of their first appearance. *)
Fixpoint first_seen (seen l : list string) : list string :=
  match l with
  | [] => []
  | k :: r =>
      if contains seen k then first_seen seen r
      else k :: first_seen (k :: seen) r
  end.

Definition keys (d : dict) : list string := map fst d.

(** A cell of a frame built from records: the value under the key, NaN
    when the record has no such key. *)
Definition cell (d : dict) (k : string) : value :=
  match getitem d k with
  | Ok v => v
  | Raise _ => VNaN
  end.

(** The column of a key in a list of records. *)
Definition column (records : list dict) (k : string) : list value :=
  map (fun d => cell d k) records.

(** [pd.DataFrame(records)] for a list of dicts: the columns are the keys
    of the records in the order in which they first appear, so a frame
    built from no record has no column; the index is the default one; each
    column is typed. *)
Definition DataFrame_of_records (records : list dict) : DataFrame :=
  let cols := first_seen [] (List.concat (map keys records)) in
  {| columns := cols;
     index := RangeIndex;
     data := map (fun d => map (fun k => typed (column records k) (cell d k)) cols)
                 records |}.

(** The platform decides [os.linesep], the default line terminator of
    [to_csv]. *)
Inductive platform : Type := Posix | Windows.

Definition linesep (p : platform) : string :=
  match p with
  | Posix => nl
  | Windows => cr ++ nl
  end.

Fixpoint string_exists (f : ascii -> bool) (s : string) : bool :=
  match s with
  | EmptyString => false
  | String c r => f c || string_exists f r
  end.

(** The csv writer under QUOTE_MINIMAL: a field is quoted when it holds the
    delimiter, the quote character or a character of the line terminator. *)
Definition special (lineterminator : string) (c : ascii) : bool :=
  (c =? ",")%char || (c =? "034")%char
  || string_exists (Ascii.eqb c) lineterminator.

Fixpoint double_quotes (s : string) : string :=
  match s with
  | EmptyString => EmptyString
  | String c r =>
      if (c =? "034")%char then String c (String c (double_quotes r))
      else String c (double_quotes r)
  end.

Definition csv_field (lineterminator s : string) : string :=
  if string_exists (special lineterminator) s
  then dquote ++ double_quotes s ++ dquote
  else s.

(** [writer.writerow(fields)]: a record made of one empty field is written
    as a pair of quotes, a record without field as an empty line. *)
Definition writerow (lineterminator : string) (fields : list string) : string :=
  match fields with
  | [EmptyString] => dquote ++ dquote ++ lineterminator
  | _ => join "," (map (csv_field lineterminator) fields) ++ lineterminator
  end.

(** The text of a cell in the CSV: missing values are written empty. *)
Definition cell_text (v : value) : string :=
  match v with
  | VStr s => s
  | VInt n => str_of_int n
  | VFloat r => r
  | VNaN => ""
  end.

(** [df.to_csv(index=False)]: the header, then one record per row. *)
Definition to_csv (p : platform) (df : DataFrame) : string :=
  writerow (linesep p) (columns df)
  ++ concat_all (map (fun r => writerow (linesep p) (map cell_text r)) (data df)).

(** [s.encode("utf-8")]. *)
Definition encode_utf8 (s : string) : list Byte.byte := list_byte_of_string s.

(** [pd.DataFrame(results).to_csv(index=False).encode("utf-8")]. *)
Definition assemble (p : platform) (results : list dict) : list Byte.byte :=
  encode_utf8 (to_csv p (DataFrame_of_records results)).

(** ** The script as a whole *)

(** What the page ends up showing. *)
Inductive page : Type :=
| AwaitingUpload
| NoReviewColumn (available : list string)
| AwaitingClick (review_col : string)
| Crashed (e : exn)
| Completed (results : list dict) (csv : list Byte.byte).

(** The script from the upload to the download, as far as its data goes:
    nothing, the error of line 66, the wait for the click, a run of the
    loop that raised, or the results and their CSV bytes. The calls that
    only draw the page (the banners, [st.dataframe] at lines 71 and 124,
    the download button) are taken to return and are not part of it. *)
Definition app {W : Type} (env : Env W) (p : platform)
    (uploaded_file : option DataFrame) (clicked : bool) (w : W) : page * W :=
  match uploaded_file with
  | None => (AwaitingUpload, w)
  | Some df =>
      match detect_review_col (columns df) with
      | None => (NoReviewColumn (columns df), w)
      | Some review_col =>
          if clicked then
            match analyze env review_col df w with
            | (Ok results, w') => (Completed results (assemble p results), w')
            | (Raise e, w') => (Crashed e, w')
            end
          else (AwaitingClick review_col, w)
      end
  end.

(** ** Reading a CSV text back into records and fields *)

(** The splitting into records and fields with which reading a CSV file
    starts ([pd.read_csv], line 52), before any typing of the cells:
    fields separated by commas, records ended by LF, CR or CRLF, quoted
    fields with doubled quotes; empty lines and lines made of spaces and
    tabs only are skipped. (A text that ends inside a quoted field, which
    the writer never produces, is given as read so far.) *)
Inductive reader_state : Type :=
| StartField
| InField
| InQuoted
| AfterQuote
| AfterCR
| BlankLine.

(** A space or a tab. *)
Definition is_blank (c : ascii) : bool := (c =? " ")%char || (c =? "009")%char.

Definition snoc (s : string) (c : ascii) : string := s ++ String c "".

(** One character of input: the next state, the field and the record being
    built, and the record that this character completes, if any. *)
Definition end_record (st : reader_state) (field : string) (record : list string)
    (next : reader_state) :
    reader_state * string * list string * option (list string) :=
  match st, record with
  | StartField, [] => (next, "", [], None)
  | _, _ => (next, "", [], Some (record ++ [field])%list)
  end.

(** A first character of a record that is neither a line end, a comma nor
    a quote: a blank may be the start of a line to skip. *)
Definition start_record (c : ascii) :
    reader_state * string * list string * option (list string) :=
  if is_blank c then (BlankLine, String c "", [], None)
  else (InField, String c "", [], None).

Definition reader_step (st : reader_state) (field : string)
    (record : list string) (c : ascii) :
    reader_state * string * list string * option (list string) :=
  match st with
  | InQuoted =>
      if (c =? "034")%char then (AfterQuote, field, record, None)
      else (InQuoted, snoc field c, record, None)
  | AfterCR =>
      if (c =? "010")%char then (StartField, "", [], None)
      else if (c =? "013")%char then (AfterCR, "", [], None)
      else if (c =? ",")%char then (StartField, "", [""], None)
      else if (c =? "034")%char then (InQuoted, "", [], None)
      else start_record c
  | StartField =>
      if (c =? "010")%char then end_record st field record StartField
      else if (c =? "013")%char then end_record st field record AfterCR
      else if (c =? ",")%char then (StartField, "", (record ++ [field])%list, None)
      else if (c =? "034")%char then (InQuoted, "", record, None)
      else match record with
           | [] => start_record c
           | _ => (InField, String c "", record, None)
           end
  | BlankLine =>
      if (c =? "010")%char then (StartField, "", [], None)
      else if (c =? "013")%char then (AfterCR, "", [], None)
      else if (c =? ",")%char then (StartField, "", (record ++ [field])%list, None)
      else if is_blank c then (BlankLine, snoc field c, record, None)
      else (InField, snoc field c, record, None)
  | InField =>
      if (c =? "010")%char then end_record st field record StartField
      else if (c =? "013")%char then end_record st field record AfterCR
      else if (c =? ",")%char then (StartField, "", (record ++ [field])%list, None)
      else (InField, snoc field c, record, None)
  | AfterQuote =>
      if (c =? "034")%char then (InQuoted, snoc field c, record, None)
      else if (c =? "010")%char then end_record st field record StartField
      else if (c =? "013")%char then end_record st field record AfterCR
      else if (c =? ",")%char then (StartField, "", (record ++ [field])%list, None)
      else (InField, snoc field c, record, None)
  end.

Fixpoint read_from (s : string) (st : reader_state) (field : string)
    (record : list string) : list (list string) :=
  match s with
  | EmptyString =>
      match st, record with
      | StartField, [] => []
      | AfterCR, _ => []
      | BlankLine, _ => []
      | _, _ => [(record ++ [field])%list]
      end
  | String c r =>
      match reader_step st field record c with
      | (st', field', record', Some done) => done :: read_from r st' field' record'
      | (st', field', record', None) => read_from r st' field' record'
      end
  end.

Definition read_records (s : string) : list (list string) :=
  read_from s StartField "" [].

(** Reading the downloaded bytes back: decoding, then splitting. *)
Definition read_back (csv : list Byte.byte) : list (list string) :=
  read_records (string_of_list_byte csv).

(** The text of the fields of a record of the result table. *)
Definition texts (d : dict) : list string := map (fun kv => cell_text (snd kv)) d.

(** The value that [pd.read_csv] gives a field that is empty: a missing
    value. The typing of the other fields is not modelled. *)
Definition read_cell (field : string) : option value :=
  match field with
  | EmptyString => Some VNaN
  | String _ _ => None
  end.

(** ** Sample data *)

Definition shoes : DataFrame :=
  {| columns := ["product_name"; "review_text"; "rating"];
     index := RangeIndex;
     data := [[VStr "Shoe A"; VStr "Great fit"; VInt 5];
              [VStr "Shoe B"; VStr "Too tight"; VInt 2]] |}.

Definition stub_text : string :=
  "1. Sentiment: Positive" ++ nl ++ "2. Key points: comfortable" ++ nl
  ++ "3. Recommendation: Yes".

(** A service that answers its first call and times out afterwards; the
    world is the number of calls made so far. *)
Definition stub_env : Env nat :=
  {| generate_content := fun _ n =>
       (match n with O => Text stub_text | S _ => Raises "timeout" end, S n);
     show_progress := fun _ _ n => n;
     sleep := fun n => n |}.

(** A service that is down: every call raises. *)
Definition failing_env : Env nat :=
  {| generate_content := fun _ n => (Raises "quota exceeded", S n);
     show_progress := fun _ _ n => n;
     sleep := fun n => n |}.

(** ** Notions used to state the properties *)

Definition has_label (row : Series) (k : string) : bool :=
  match getitem row k with
  | Ok _ => true
  | Raise _ => false
  end.

(** A row with the three fields that the loop reads. *)
Definition complete (review_col : string) (row : Series) : bool :=
  has_label row review_col && has_label row "product_name"
  && has_label row "rating".

(** A label that the progress step accepts. *)
Definition label_ok (total : nat) (i : label) : bool :=
  match i with
  | LInt z => ((0 <=? z + 1) && (z + 1 <=? Z.of_nat total))%Z
  | LStr _ => false
  end.

(** A row that has the three fields and a label that the progress step
    accepts. *)
Definition passes (review_col : string) (total : nat) (ir : label * Series) : Prop :=
  complete review_col (snd ir) = true /\ label_ok total (fst ir) = true.

(** The replies that the service gives during a run of the loop, call
    after call, up to the first row that raises. *)
Fixpoint replies {W : Type} (env : Env W) (review_col : string) (total : nat)
    (rows : list (label * Series)) (w : W) : list reply :=
  match rows with
  | [] => []
  | (i, row) :: rest =>
      match build_prompt review_col row with
      | Ok prompt =>
          let (r, w1) := generate_content env prompt w in
          r :: match i with
               | LInt z =>
                   if label_ok total i && complete review_col row
                   then replies env review_col total rest
                          (sleep env (show_progress env (z + 1) total w1))
                   else []
               | LStr _ => []
               end
      | Raise _ => []
      end
  end.

(** The entries that rows and replies give, pair by pair. *)
Fixpoint entries (review_col : string) (rows : list (label * Series))
    (rs : list reply) : list dict :=
  match rows, rs with
  | (_, row) :: rest, r :: rs' =>
      entry (cell row "product_name") (cell row review_col)
            (cell row "rating") (analysis_of r)
      :: entries review_col rest rs'
  | _, _ => []
  end.

(** A record of the result table, as line 103 builds it. *)
Definition is_entry (d : dict) : Prop :=
  exists pn rv rt a, d = entry pn rv rt a.

(** What is written for a cell of a column: an integer of a column of
    floats is written as a float. *)
Definition written (cells : list value) (v : value) : string :=
  match v with
  | VStr s => s
  | VInt n =>
      if negb (existsb is_text cells) && existsb is_floating cells
      then str_of_int n ++ ".0"
      else str_of_int n
  | VFloat repr => repr
  | VNaN => ""
  end.

(** The texts of the cells of the result table, row by row. *)
Definition table_texts (results : list dict) : list (list string) :=
  map (map cell_text) (data (DataFrame_of_records results)).

(** The texts of the table, entry by entry. *)
Definition entry_texts (results : list dict) (d : dict) : list string :=
  [written (column results "product_name") (cell d "product_name");
   written (column results "review") (cell d "review");
   written (column results "rating") (cell d "rating");
   written (column results "analysis") (cell d "analysis")].

(** Integers that a float holds exactly. *)
Definition small_ints (d : dict) : Prop :=
  Forall (fun kv => match snd kv with
                    | VInt n => (Z.abs n <= 2 ^ 53)%Z
                    | _ => True
                    end) d.

Definition header : string := "product_name,review,rating,analysis".

Definition has_cr (s : string) : bool :=
  string_exists (fun c => (c =? "013")%char) s.

(** A record that can be read back on platform [p]: where lines end with a
    bare LF, a carriage return inside a field is written unquoted and a
    reader takes it for the end of the record. *)
Definition readable (p : platform) (d : dict) : Prop :=
  match p with
  | Posix => Forall (fun s => has_cr s = false) (texts d)
  | Windows => True
  end.

(** The keys of a record of the result table, in the order of line 103. *)
Definition entry_keys : list string :=
  ["product_name"; "review"; "rating"; "analysis"].

(** A character that the reader takes as part of an unquoted field. *)
Definition plain (c : ascii) : bool :=
  negb (c =? ",")%char && negb (c =? "034")%char
  && negb (c =? "010")%char && negb (c =? "013")%char.

Fixpoint string_forall (f : ascii -> bool) (s : string) : bool :=
  match s with
  | EmptyString => true
  | String c r => f c && string_forall f r
  end.

(** Where the reader stands once the characters of field [s] are read,
    [record] being the fields of the record read before it. *)
Definition field_read (record : list string) (s : string) (st : reader_state) :
    Prop :=
  st = AfterQuote \/ (st = InField /\ s <> "") \/ (st = StartField /\ s = "")
  \/ (st = BlankLine /\ record = [] /\ s <> "" /\ string_forall is_blank s = true).

(** A record made of one field of spaces and tabs that is not empty: the
    writer writes it bare and the reader skips its line. *)
Definition skipped (fields : list string) : Prop :=
  exists s, fields = [s] /\ s <> "" /\ string_forall is_blank s = true.

(** A record made of one field of spaces and tabs, the empty field
    included: written bare, its line is skipped by the reader. *)
Definition lone_blank (fields : list string) : Prop :=
  exists s, fields = [s] /\ string_forall is_blank s = true.

(** The same service in front of two worlds: a counter of calls, and a
    clock that the delay advances. *)
Definition clock_env : Env nat :=
  {| generate_content := fun prompt t =>
       (if String.prefix nl prompt then Text " fine " else Raises "bad prompt", t);
     show_progress := fun _ _ t => t;
     sleep := fun t => t + 5 |}.

Definition count_env : Env nat :=
  {| generate_content := fun prompt n =>
       (if String.prefix nl prompt then Text " fine " else Raises "bad prompt", S n);
     show_progress := fun _ _ n => n;
     sleep := fun n => n |}.


(** Frames that lack a column. *)
Definition no_rating : DataFrame :=
  {| columns := ["product_name"; "review"];
     index := RangeIndex;
     data := [[VStr "Shoe A"; VStr "Great fit"];
              [VStr "Shoe B"; VStr "Too tight"]] |}.

Definition no_product_name : DataFrame :=
  {| columns := ["review"; "rating"];
     index := RangeIndex;
     data := [[VStr "Great fit"; VInt 5]; [VStr "Too tight"; VInt 2]] |}.

(** ** The API key (app.py, lines 12-41) *)

(** What the start of the script reads from its host: whether the two
    secrets files exist, the secrets that Streamlit serves, and the
    environment as it is when the script starts. Secrets are taken to be
    text. *)
Record Host : Type := {
  app_secrets_exists : bool;
  global_secrets_exists : bool;
  secrets : list (string * string);
  environ : list (string * string)
}.

(** [d.get(key)]. *)
Fixpoint get (d : list (string * string)) (key : string) : option string :=
  match d with
  | [] => None
  | (k, v) :: r => if (k =? key)%string then Some v else get r key
  end.

(** [st.secrets[key]]: raises KeyError when the secret is absent. *)
Definition secret (h : Host) (key : string) : result string :=
  match get (secrets h) key with
  | Some v => Ok v
  | None => Raise (KeyError key)
  end.

(** [not API_KEY]: None and the empty text are false. *)
Definition falsy (k : option string) : bool :=
  match k with
  | None => true
  | Some EmptyString => true
  | Some (String _ _) => false
  end.

(** The [st.success] banners of lines 20, 25 and 31. *)
Inductive banner : Type :=
| LoadedFromSecrets
| LoadedFromGlobalSecrets
| LoadedFromEnvironment.

(** Lines 15-25: [API_KEY = None], then the secrets, when a file exists. *)
Definition key_from_secrets (h : Host) : result (option string * list banner) :=
  if app_secrets_exists h then
    match secret h "GEMINI_API_KEY" with
    | Ok k => Ok (Some k, [LoadedFromSecrets])
    | Raise e => Raise e
    end
  else if global_secrets_exists h then
    match secret h "GEMINI_API_KEY" with
    | Ok k => Ok (Some k, [LoadedFromGlobalSecrets])
    | Raise e => Raise e
    end
  else Ok (None, []).

(** [os.environ] as line 29 finds it: [environ] is the environment at the
    start of the script, and reading [st.secrets] has copied every secret
    into it, over the variable of the same name. *)
Definition environ_seen (h : Host) : list (string * string) :=
  if app_secrets_exists h || global_secrets_exists h
  then (secrets h ++ environ h)%list
  else environ h.

(** Lines 28-31: the environment, when the key is still false. *)
Definition key_from_environ (h : Host) (st : option string * list banner) :
    option string * list banner :=
  let (k, shown) := st in
  if falsy k then
    let k' := get (environ_seen h) "GEMINI_API_KEY" in
    (k', if falsy k' then shown else (shown ++ [LoadedFromEnvironment])%list)
  else (k, shown).

(** Lines 34-35: the constant of the source, when the key is still false.
    The constant is a credential and is kept out of this file: it is the
    parameter [fallback]. *)
Definition key_or_fallback (fallback : string) (k : option string) : string :=
  match k with
  | Some (String c r) => String c r
  | _ => fallback
  end.

(** The key handed to [genai.configure] and the banners shown, or the
    exception that stops the script. *)
Definition load_api_key (fallback : string) (h : Host) :
    result (string * list banner) :=
  match key_from_secrets h with
  | Raise e => Raise e
  | Ok st =>
      let (k, shown) := key_from_environ h st in
      Ok (key_or_fallback fallback k, shown)
  end.

(** ** Observing the loop *)

(** What the loop does to the outside world, in the order it does it. *)
Inductive event : Type :=
| Called (prompt : string)
| Reported (done : Z) (total : nat)
| Slept.

(** The world as the history of the run: the service may answer from the
    whole history, and each collaborator adds its event to it. *)
Definition trace_env (answer : list event -> string -> reply) : Env (list event) :=
  {| generate_content := fun prompt log =>
       (answer log prompt, (log ++ [Called prompt])%list);
     show_progress := fun k n log => (log ++ [Reported k n])%list;
     sleep := fun log => (log ++ [Slept])%list |}.

Definition calls (log : list event) : list string :=
  flat_map (fun e => match e with Called prompt => [prompt] | _ => [] end) log.

Definition reports (log : list event) : list (Z * nat) :=
  flat_map (fun e => match e with Reported k n => [(k, n)] | _ => [] end) log.

Definition pauses (log : list event) : nat :=
  List.length (filter (fun e => match e with Slept => true | _ => false end) log).

(** The prompt of a row that has the resolved column and rating. *)
Definition prompt_text (review_col : string) (row : Series) : string :=
  prompt_head ++ format (cell row review_col) ++ prompt_mid
  ++ format (cell row "rating") ++ prompt_tail.

(** What a row that goes through adds to the history. *)
Definition row_events (review_col : string) (total : nat)
    (ir : label * Series) : list event :=
  match fst ir with
  | LInt z =>
      [Called (prompt_text review_col (snd ir)); Reported (z + 1) total; Slept]
  | LStr _ => [Called (prompt_text review_col (snd ir))]
  end.

(** A frame whose rows have one cell per column. *)
Definition well_formed (df : DataFrame) : Prop :=
  Forall (fun r => List.length r = List.length (columns df)) (data df).

(** ** Whitespace at the ends of a text *)

(** Whether a byte sequence begins with a whitespace character. *)
Definition starts_with_space (s2 : ascii -> ascii -> bool)
    (s3 : ascii -> ascii -> ascii -> bool) (l : list ascii) : bool :=
  match l with
  | a :: r =>
      space1 a
      || match r with
         | b :: r2 =>
             s2 a b
             || match r2 with
                | c :: _ => s3 a b c
                | [] => false
                end
         | [] => false
         end
  | [] => false
  end.

(** Whether a text begins or ends with a whitespace character. *)
Definition outer_space (s : string) : bool :=
  starts_with_space space2 space3 (list_ascii_of_string s)
  || starts_with_space (fun b a => space2 a b) (fun c b a => space3 a b c)
       (rev (list_ascii_of_string s)).

(** A byte sequence made of whitespace characters only. *)
Inductive whitespace_with (s2 : ascii -> ascii -> bool)
    (s3 : ascii -> ascii -> ascii -> bool) : list ascii -> Prop :=
| ws_nil : whitespace_with s2 s3 []
| ws_one a l :
    space1 a = true -> whitespace_with s2 s3 l -> whitespace_with s2 s3 (a :: l)
| ws_two a b l :
    s2 a b = true -> whitespace_with s2 s3 l ->
    whitespace_with s2 s3 (a :: b :: l)
| ws_three a b c l :
    s3 a b c = true -> whitespace_with s2 s3 l ->
    whitespace_with s2 s3 (a :: b :: c :: l).

(** A text made of whitespace characters only. *)
Definition whitespace (s : string) : Prop :=
  whitespace_with space2 space3 (list_ascii_of_string s).

(** A frame with text labels, as [read_csv] builds it from lines that have
    one field more than the header, and one with a label out of range. *)
Definition labelled_shoes : DataFrame :=
  {| columns := ["product_name"; "review_text"; "rating"];
     index := Labels [LStr "a"; LStr "b"];
     data := [[VStr "Shoe A"; VStr "Great fit"; VInt 5];
              [VStr "Shoe B"; VStr "Too tight"; VInt 2]] |}.

Definition numbered_shoes : DataFrame :=
  {| columns := ["product_name"; "review_text"; "rating"];
     index := Labels [LInt 7; LInt 8];
     data := [[VStr "Shoe A"; VStr "Great fit"; VInt 5];
              [VStr "Shoe B"; VStr "Too tight"; VInt 2]] |}.

(** * Properties *)

(** ** Strings *)

Lemma append_assoc (a b c : string) : (a ++ b) ++ c = a ++ (b ++ c).
Proof. induction a as [|x a IH]; simpl; [reflexivity | now rewrite IH]. Qed.

Lemma append_empty_r (a : string) : a ++ "" = a.
Proof. induction a as [|x a IH]; simpl; [reflexivity | now rewrite IH]. Qed.

Lemma prefix_append (a b : string) : String.prefix a (a ++ b) = true.
Proof.
  induction a as [|x a IH]; simpl.
  - now destruct b.
  - destruct (ascii_dec x x) as [_|ne]; [exact IH | now elim ne].
Qed.

(** ** Column detection *)

Lemma contains_In (cols : list string) (col : string) :
  contains cols col = true <-> In col cols.
Proof.
  unfold contains. rewrite existsb_exists. split.
  - intros [x [Hin Heq]]. apply String.eqb_eq in Heq. now subst.
  - intros Hin. exists col. split; [assumption | apply String.eqb_refl].
Qed.

Lemma contains_not_In (cols : list string) (col : string) :
  contains cols col = false <-> ~ In col cols.
Proof.
  rewrite <- contains_In. destruct (contains cols col); split; intro H;
    try reflexivity; try discriminate; try (now elim H); intro K; discriminate.
Qed.

(** The loop returns the candidate that splits the list into candidates
    that are absent and the rest. *)
Lemma first_present_Some (candidates cols : list string) (c : string) :
  first_present candidates cols = Some c <->
  exists before after,
    candidates = (before ++ c :: after)%list /\ In c cols /\
    forall c', In c' before -> ~ In c' cols.
Proof.
  induction candidates as [|x rest IH]; simpl.
  - split; [discriminate |].
    intros [before [after [H _]]]. now destruct before.
  - destruct (contains cols x) eqn:E.
    + apply contains_In in E. split.
      * intros [= <-]. exists [], rest. now repeat split.
      * intros [before [after [Hs [Hin Hno]]]].
        destruct before as [|y before]; simpl in Hs; injection Hs as Hx Hs.
        -- now subst.
        -- exfalso. apply (Hno x); [now left | assumption].
    + apply contains_not_In in E. rewrite IH. split.
      * intros [before [after [Hs [Hin Hno]]]].
        exists (x :: before), after. subst rest. repeat split; trivial.
        intros c' [<- | Hc']; [assumption | now apply Hno].
      * intros [before [after [Hs [Hin Hno]]]].
        destruct before as [|y before]; simpl in Hs; injection Hs as Hx Hs.
        -- subst. contradiction.
        -- exists before, after. repeat split; trivial.
           intros c' Hc'. apply Hno. now right.
Qed.

Lemma first_present_None (candidates cols : list string) :
  first_present candidates cols = None <->
  forall c, In c candidates -> ~ In c cols.
Proof.
  induction candidates as [|x rest IH]; simpl.
  - split; [intros _ c [] | reflexivity].
  - destruct (contains cols x) eqn:E.
    + apply contains_In in E. split; [discriminate |].
      intros H. exfalso. apply (H x); [now left | assumption].
    + apply contains_not_In in E. rewrite IH. split.
      * intros H c [<- | Hc]; [assumption | now apply H].
      * intros H c Hc. apply H. now right.
Qed.

Lemma first_present_ext (candidates cols cols' : list string) :
  (forall x, In x cols <-> In x cols') ->
  first_present candidates cols = first_present candidates cols'.
Proof.
  intros Hext. induction candidates as [|x rest IH]; simpl; [reflexivity |].
  assert (E : contains cols x = contains cols' x).
  { destruct (contains cols' x) eqn:E'.
    - apply contains_In, Hext, contains_In, E'.
    - apply contains_not_In. intro K. apply contains_not_In in E'.
      apply E', Hext, K. }
  rewrite E, IH. reflexivity.
Qed.

(** C3: when the columns hold at least one of the candidates review,
    review_text, text, comment, the detection returns the first candidate,
    in that fixed order, that is among the columns: every candidate before
    it is absent. The answer depends only on which names are present, not
    on where they stand among the columns, and columns holding both review
    and text resolve to review. *)
Theorem detect_review_col_first_candidate (cols : list string) :
  (exists c, In c possible_review_cols /\ In c cols) ->
  (exists c before after,
      detect_review_col cols = Some c /\
      possible_review_cols = (before ++ c :: after)%list /\
      In c cols /\
      forall c', In c' before -> ~ In c' cols) /\
  (forall cols', (forall x, In x cols <-> In x cols') ->
      detect_review_col cols' = detect_review_col cols) /\
  (In "review" cols -> In "text" cols -> detect_review_col cols = Some "review").
Proof.
  intros [c0 [Hc0 Hin0]]. unfold detect_review_col. repeat split.
  - destruct (first_present possible_review_cols cols) as [c|] eqn:E.
    + destruct (proj1 (first_present_Some _ _ _) E) as [b [a [Hs [Hin Hno]]]].
      exists c, b, a. now repeat split.
    + exfalso. exact (proj1 (first_present_None _ _) E c0 Hc0 Hin0).
  - intros cols' Hext. symmetry. now apply first_present_ext.
  - intros Hr _. apply first_present_Some. exists [], ["review_text"; "text"; "comment"].
    repeat split; [assumption | intros c' []].
Qed.

Lemma detect_review_col_first_candidate_witness :
  (exists c, In c possible_review_cols /\
             In c ["rating"; "text"; "product_name"; "review"]) /\
  detect_review_col ["rating"; "text"; "product_name"; "review"] = Some "review".
Proof.
  assert (H : exists c, In c possible_review_cols /\
                        In c ["rating"; "text"; "product_name"; "review"]).
  { exists "text". split; simpl; auto. }
  split; [exact H |].
  apply (detect_review_col_first_candidate _ H); simpl; auto.
Defined.

(** C4: when no candidate is among the columns (the empty list of columns
    included), no review column is chosen: the script stops at the error
    that carries the list of the columns of the file, as they are, and the
    world is left untouched (no row is read, no call is made). *)
Theorem no_review_column_reported (cols : list string) :
  (forall c, In c possible_review_cols -> ~ In c cols) ->
  detect_review_col cols = None /\
  forall (W : Type) (env : Env W) (p : platform) (idx : Index)
         (rows : list (list value)) (clicked : bool) (w : W),
    app env p (Some {| columns := cols; index := idx; data := rows |}) clicked w
    = (NoReviewColumn cols, w).
Proof.
  intros H.
  assert (E : detect_review_col cols = None) by now apply first_present_None.
  split; [exact E |]. intros. unfold app. simpl. now rewrite E.
Qed.

Lemma no_review_column_reported_witness :
  (forall c, In c possible_review_cols -> ~ In c ["product_name"; "stars"]) /\
  app stub_env Posix
      (Some {| columns := ["product_name"; "stars"]; index := RangeIndex;
               data := [[VStr "Shoe A"; VInt 5]] |}) true 0
  = (NoReviewColumn ["product_name"; "stars"], 0).
Proof.
  assert (H : forall c, In c possible_review_cols ->
                        ~ In c ["product_name"; "stars"]).
  { simpl. intros c [<-|[<-|[<-|[<-|[]]]]] [K|[K|[]]]; discriminate. }
  split; [exact H |].
  apply (no_review_column_reported _ H).
Defined.

(** ** Lookups and the prompt *)

Lemma getitem_raise (row : Series) (k : string) (e : exn) :
  getitem row k = Raise e -> e = KeyError k.
Proof.
  induction row as [|[k' v] r IH]; simpl.
  - now intros [= <-].
  - destruct (k' =? k)%string; [discriminate | exact IH].
Qed.

Lemma has_label_true (row : Series) (k : string) :
  has_label row k = true -> getitem row k = Ok (cell row k).
Proof.
  unfold has_label, cell. now destruct (getitem row k).
Qed.

Lemma has_label_false (row : Series) (k : string) :
  has_label row k = false -> getitem row k = Raise (KeyError k).
Proof.
  unfold has_label. destruct (getitem row k) as [v|e] eqn:E; [discriminate |].
  intros _. now rewrite (getitem_raise _ _ _ E).
Qed.

Lemma complete_true (col : string) (row : Series) :
  complete col row = true ->
  getitem row col = Ok (cell row col) /\
  getitem row "product_name" = Ok (cell row "product_name") /\
  getitem row "rating" = Ok (cell row "rating").
Proof.
  unfold complete. intros H.
  apply andb_true_iff in H as [H H3]. apply andb_true_iff in H as [H1 H2].
  auto using has_label_true.
Qed.

Lemma build_prompt_ok (col : string) (row : Series) (rv rt : value) :
  getitem row col = Ok rv -> getitem row "rating" = Ok rt ->
  build_prompt col row
  = Ok (prompt_head ++ format rv ++ prompt_mid ++ format rt ++ prompt_tail).
Proof.
  intros H1 H2. unfold build_prompt, prompt_template, fstring.
  rewrite H1, H2. now rewrite append_empty_r.
Qed.

Lemma build_prompt_raise (col : string) (row : Series) (e : exn) :
  build_prompt col row = Raise e -> e = KeyError col \/ e = KeyError "rating".
Proof.
  unfold build_prompt, prompt_template, fstring.
  destruct (getitem row col) as [rv|e1] eqn:E1.
  - destruct (getitem row "rating") as [rt|e2] eqn:E2; [discriminate |].
    intros [= <-]. right. exact (getitem_raise _ _ _ E2).
  - intros [= <-]. left. exact (getitem_raise _ _ _ E1).
Qed.

Lemma build_prompt_needs_rating (col : string) (row : Series) :
  has_label row "rating" = false ->
  exists e, build_prompt col row = Raise e.
Proof.
  intros H. apply has_label_false in H.
  unfold build_prompt, prompt_template, fstring.
  destruct (getitem row col); rewrite ?H; eauto.
Qed.

(** ** The loop *)

Lemma build_prompt_complete (col : string) (row : Series) :
  complete col row = true -> build_prompt col row = Ok (prompt_text col row).
Proof.
  intros H. destruct (complete_true _ _ H) as [Hc [_ Hr]].
  exact (build_prompt_ok _ _ _ _ Hc Hr).
Qed.

Section LoopFacts.
Context {W : Type}.
Variable env : Env W.
Variable col : string.
Variable total : nat.

Ltac run := unfold analyze_row, progress_step, bind, lift, act, effect, ret.

(** One iteration on such a row: one call, one entry appended. *)
Lemma analyze_row_complete (z : Z) (row : Series) (results : list dict) (w : W) :
  complete col row = true -> label_ok total (LInt z) = true ->
  analyze_row env col total (LInt z) row results w
  = (Ok (results ++ [entry (cell row "product_name") (cell row col)
                           (cell row "rating")
                           (analysis_of
                              (fst (generate_content env (prompt_text col row) w)))])%list,
     sleep env (show_progress env (z + 1) total
                  (snd (generate_content env (prompt_text col row) w)))).
Proof.
  intros H Hl. destruct (complete_true _ _ H) as [Hc [Hp Hr]].
  run. rewrite (build_prompt_complete _ _ H).
  destruct (generate_content env _ w) as [r w1]. simpl.
  rewrite Hp, Hc, Hr. simpl in Hl. now rewrite Hl.
Qed.

Lemma label_ok_int (i : label) :
  label_ok total i = true -> exists z, i = LInt z.
Proof. destruct i as [z|s]; [eauto | discriminate]. Qed.

(** One iteration appends one entry, or raises a KeyError for one of the
    three labels it reads, or raises in the progress step. *)
Lemma analyze_row_cases (i : label) (row : Series) (results : list dict) (w : W) :
  (complete col row = true /\ label_ok total i = true /\
   exists d w', analyze_row env col total i row results w
                = (Ok (results ++ [d])%list, w')) \/
  (complete col row = false /\
   exists k w', analyze_row env col total i row results w
                = (Raise (KeyError k), w') /\
                (k = "product_name" \/ k = "rating" \/ k = col)) \/
  (complete col row = true /\ label_ok total i = false /\
   exists e w', analyze_row env col total i row results w = (Raise e, w') /\
                (e = TypeError \/ e = StreamlitAPIException)).
Proof.
  destruct (complete col row) eqn:E.
  - destruct (label_ok total i) eqn:El.
    + left. repeat split. destruct (label_ok_int i El) as [z ->].
      rewrite (analyze_row_complete z row results w E El). eauto.
    + right. right. repeat split.
      destruct (complete_true _ _ E) as [Hc [Hp Hr]].
      run. rewrite (build_prompt_complete _ _ E).
      destruct (generate_content env _ w) as [r w1]. simpl.
      rewrite Hp, Hc, Hr. destruct i as [z|s]; simpl in *.
      * rewrite El. eauto.
      * eauto.
  - right. left. split; [reflexivity |]. run.
    destruct (build_prompt col row) as [prompt|e] eqn:Eb.
    + destruct (generate_content env prompt w) as [r w1].
      destruct (getitem row "product_name") as [pn|e] eqn:Ep.
      * destruct (getitem row col) as [rv|e] eqn:Ec.
        -- destruct (getitem row "rating") as [rt|e] eqn:Er.
           ++ exfalso. unfold complete, has_label in E.
              rewrite Ep, Ec, Er in E. discriminate.
           ++ rewrite (getitem_raise _ _ _ Er). eauto 6.
        -- rewrite (getitem_raise _ _ _ Ec). eauto 6.
      * rewrite (getitem_raise _ _ _ Ep). eauto 6.
    + destruct (build_prompt_raise _ _ _ Eb) as [-> | ->]; eauto 6.
Qed.

Lemma analyze_rows_complete (rows : list (label * Series)) :
  Forall (passes col total) rows ->
  forall (acc : list dict) (w : W),
  exists w',
    analyze_rows env col total rows acc w
    = (Ok (acc ++ entries col rows (replies env col total rows w))%list, w').
Proof.
  induction 1 as [|[i row] rest [Hrow Hl] _ IH]; intros acc w; simpl.
  - exists w. unfold ret. now rewrite app_nil_r.
  - simpl in Hrow, Hl. destruct (label_ok_int i Hl) as [z ->].
    unfold bind at 1. rewrite (analyze_row_complete z row acc w Hrow Hl).
    rewrite (build_prompt_complete _ _ Hrow), Hl, Hrow.
    destruct (generate_content env (prompt_text col row) w) as [r w1]. simpl.
    destruct (IH (acc ++ [entry (cell row "product_name") (cell row col)
                                (cell row "rating") (analysis_of r)])%list
                 (sleep env (show_progress env (z + 1) total w1))) as [w' Hw'].
    exists w'. rewrite Hw'. now rewrite <- app_assoc.
Qed.

Lemma replies_length (rows : list (label * Series)) :
  Forall (passes col total) rows ->
  forall w, List.length (replies env col total rows w) = List.length rows.
Proof.
  induction 1 as [|[i row] rest [Hrow Hl] _ IH]; intros w; simpl; [reflexivity |].
  simpl in Hrow, Hl. destruct (label_ok_int i Hl) as [z ->].
  rewrite (build_prompt_complete _ _ Hrow), Hl, Hrow.
  destruct (generate_content env (prompt_text col row) w) as [r w1]. simpl.
  now rewrite IH.
Qed.

Lemma entries_length (rows : list (label * Series)) (rs : list reply) :
  List.length rs = List.length rows ->
  List.length (entries col rows rs) = List.length rows.
Proof.
  revert rs. induction rows as [|[i row] rest IH]; intros [|r rs]; simpl;
    try reflexivity; try discriminate.
  intros [= H]. now rewrite IH.
Qed.

Lemma entries_nth (rows : list (label * Series)) (rs : list reply) (n : nat)
    (ir : label * Series) (r : reply) :
  nth_error rows n = Some ir -> nth_error rs n = Some r ->
  nth_error (entries col rows rs) n
  = Some (entry (cell (snd ir) "product_name") (cell (snd ir) col)
                (cell (snd ir) "rating") (analysis_of r)).
Proof.
  revert rs n. induction rows as [|[i row] rest IH]; intros rs [|n]; simpl;
    try discriminate.
  - intros [= <-]. destruct rs as [|r0 rs]; simpl; [discriminate |].
    now intros [= <-].
  - intros Hrow. destruct rs as [|r0 rs]; simpl; [discriminate |].
    now apply IH.
Qed.

(** The run of the loop over rows that pass, entry by entry. *)
Lemma loop_run (rows : list (label * Series)) (w : W) :
  Forall (passes col total) rows ->
  exists results w',
    analyze_rows env col total rows [] w = (Ok results, w') /\
    List.length results = List.length rows /\
    List.length (replies env col total rows w) = List.length rows /\
    forall n ir r,
      nth_error rows n = Some ir ->
      nth_error (replies env col total rows w) n = Some r ->
      getitem (snd ir) "product_name" = Ok (cell (snd ir) "product_name") /\
      getitem (snd ir) col = Ok (cell (snd ir) col) /\
      getitem (snd ir) "rating" = Ok (cell (snd ir) "rating") /\
      nth_error results n
      = Some (entry (cell (snd ir) "product_name") (cell (snd ir) col)
                    (cell (snd ir) "rating") (analysis_of r)).
Proof.
  intros Hrows.
  destruct (analyze_rows_complete rows Hrows [] w) as [w' Hrun].
  simpl in Hrun. eexists. exists w'. split; [exact Hrun |].
  pose proof (replies_length rows Hrows w) as Hlen.
  split; [now apply entries_length |]. split; [exact Hlen |].
  intros n ir r Hn Hr.
  assert (Hc : complete col (snd ir) = true).
  { rewrite Forall_forall in Hrows. apply Hrows. eapply nth_error_In, Hn. }
  destruct (complete_true _ _ Hc) as [Hcol [Hp Hrt]].
  repeat split; trivial. now apply entries_nth.
Qed.
End LoopFacts.

(** ** From the frame to its rows *)

Lemma has_label_combine (cols : list string) (vals : list value) (k : string) :
  In k cols -> List.length vals = List.length cols ->
  has_label (combine cols vals) k = true.
Proof.
  unfold has_label. revert vals.
  induction cols as [|c cols IH]; intros [|v vals] Hin Hlen;
    try contradiction; try discriminate. simpl.
  destruct (String.eqb_spec c k) as [_ | Hne]; [reflexivity |].
  destruct Hin as [-> | Hin]; [now elim Hne |].
  apply IH; [assumption | now injection Hlen].
Qed.

Lemma Forall_enumerate_from {A : Type} (P : A -> Prop) (l : list A) (i : nat) :
  Forall P l -> Forall (fun ir => P (snd ir)) (enumerate_from i l).
Proof.
  intros H. revert i. induction H as [|x l Hx _ IH]; intros i; simpl;
    constructor; [exact Hx | apply IH].
Qed.

Lemma enumerate_from_length {A : Type} (l : list A) (i : nat) :
  List.length (enumerate_from i l) = List.length l.
Proof. revert i. induction l as [|x l IH]; intros i; simpl; [| rewrite IH]; reflexivity. Qed.

(** In a frame whose rows have one cell per column and whose columns hold
    the resolved column, product_name and rating, every row is complete. *)
Lemma iterrows_complete (df : DataFrame) (col : string) :
  Forall (fun r => List.length r = List.length (columns df)) (data df) ->
  In col (columns df) -> In "product_name" (columns df) ->
  In "rating" (columns df) ->
  Forall (fun ir => complete col (snd ir) = true) (iterrows df).
Proof.
  intros Hwf Hc Hp Hr. unfold iterrows. apply Forall_map.
  apply (Forall_enumerate_from (fun row => complete col row = true)).
  apply Forall_map. revert Hwf. apply Forall_impl. intros r Hlen.
  unfold complete. now rewrite !has_label_combine.
Qed.

Lemma iterrows_length (df : DataFrame) : List.length (iterrows df) = len df.
Proof.
  unfold iterrows, len. now rewrite length_map, enumerate_from_length, length_map.
Qed.

Lemma enumerate_from_bound {A : Type} (l : list A) (i : nat) :
  Forall (fun kr => i <= fst kr < i + List.length l) (enumerate_from i l).
Proof.
  revert i. induction l as [|x l IH]; intros i; simpl; constructor.
  - simpl. lia.
  - specialize (IH (S i)). revert IH. apply Forall_impl. intros kr. lia.
Qed.

(** Under the default index every label is accepted by the progress step. *)
Lemma range_index_ok (df : DataFrame) :
  index df = RangeIndex ->
  Forall (fun ir => label_ok (len df) (fst ir) = true) (iterrows df).
Proof.
  intros Hi. unfold iterrows. rewrite Hi. apply Forall_map.
  pose proof (enumerate_from_bound (map (combine (columns df)) (data df)) 0) as H.
  rewrite length_map in H. revert H. apply Forall_impl. intros kr Hk.
  unfold len. simpl. apply andb_true_iff. split; apply Z.leb_le; lia.
Qed.

Lemma iterrows_passes (df : DataFrame) (col : string) :
  Forall (fun ir => complete col (snd ir) = true) (iterrows df) ->
  Forall (fun ir => label_ok (len df) (fst ir) = true) (iterrows df) ->
  Forall (passes col (len df)) (iterrows df).
Proof.
  intros H1 H2. rewrite Forall_forall in *. intros ir Hin. split; auto.
Qed.

(** The whole script on a well-formed frame that has a review column,
    product_name and rating: the page shows one result per row and offers
    their CSV. *)
Lemma app_completes {W : Type} (env : Env W) (p : platform) (df : DataFrame)
    (w : W) :
  Forall (fun r => List.length r = List.length (columns df)) (data df) ->
  Forall (fun ir => label_ok (len df) (fst ir) = true) (iterrows df) ->
  (exists c, In c possible_review_cols /\ In c (columns df)) ->
  In "product_name" (columns df) -> In "rating" (columns df) ->
  exists results w',
    app env p (Some df) true w = (Completed results (assemble p results), w') /\
    List.length results = len df.
Proof.
  intros Hwf Hidx [c0 [Hc0 Hin0]] Hp Hr. unfold app.
  destruct (detect_review_col (columns df)) as [col|] eqn:E.
  - assert (Hcol : In col (columns df)).
    { apply first_present_Some in E as [b [a [_ [H _]]]]. exact H. }
    pose proof (iterrows_passes df col
                  (iterrows_complete df col Hwf Hcol Hp Hr) Hidx) as Hrows.
    destruct (loop_run env col (len df) (iterrows df) w Hrows)
      as [results [w' [Hrun [Hlen _]]]].
    unfold analyze. rewrite Hrun. exists results, w'.
    split; [reflexivity |]. now rewrite Hlen, iterrows_length.
  - exfalso. exact (proj1 (first_present_None _ _) E c0 Hc0 Hin0).
Qed.

(** ** What [strip] keeps *)

Lemma lstrip_with_suffix s2 s3 (l : list ascii) :
  exists pre, l = (pre ++ lstrip_with s2 s3 l)%list.
Proof.
  remember (List.length l) as n eqn:Hn.
  revert l Hn. induction n as [n IH] using lt_wf_ind. intros l Hn.
  assert (rec : forall pre0 l', l = (pre0 ++ l')%list -> pre0 <> [] ->
                exists pre, l = (pre ++ lstrip_with s2 s3 l')%list).
  { intros pre0 l' Hl Hne.
    assert (Hlt : List.length l' < n).
    { subst n l. rewrite length_app. destruct pre0; [now elim Hne | simpl; lia]. }
    destruct (IH _ Hlt l' eq_refl) as [pre H].
    exists (pre0 ++ pre)%list. now rewrite <- app_assoc, <- H. }
  destruct l as [|a l1]; simpl; [now exists [] |].
  destruct (space1 a); [now apply (rec [a]) |].
  destruct l1 as [|b l2]; [now exists [] |].
  destruct (s2 a b); [now apply (rec [a; b]) |].
  destruct l2 as [|c l3]; [now exists [] |].
  destruct (s3 a b c); [now apply (rec [a; b; c]) | now exists []].
Qed.

Lemma string_of_list_ascii_app (a b : list ascii) :
  string_of_list_ascii (a ++ b)
  = string_of_list_ascii a ++ string_of_list_ascii b.
Proof. induction a as [|x a IH]; simpl; [reflexivity | now rewrite IH]. Qed.

(** [strip] only removes characters at the two ends. *)
Lemma strip_infix (text : string) :
  exists pre post, text = pre ++ strip text ++ post.
Proof.
  unfold strip, rstrip_bytes, lstrip_bytes.
  set (l := list_ascii_of_string text).
  destruct (lstrip_with_suffix space2 space3 l) as [p1 H1].
  set (l1 := lstrip_with space2 space3 l) in *.
  destruct (lstrip_with_suffix (fun b a => space2 a b)
              (fun c b a => space3 a b c) (rev l1)) as [p2 H2].
  set (x := lstrip_with _ _ (rev l1)) in *.
  exists (string_of_list_ascii p1), (string_of_list_ascii (rev p2)).
  rewrite <- !string_of_list_ascii_app.
  rewrite <- (string_of_list_ascii_of_string text). fold l.
  f_equal. rewrite H1 at 1. f_equal.
  rewrite <- rev_app_distr, <- H2. now rewrite rev_involutive.
Qed.

(** ** Whitespace at the ends *)

Lemma lstrip_with_fixed s2 s3 (l : list ascii) :
  starts_with_space s2 s3 l = false -> lstrip_with s2 s3 l = l.
Proof.
  destruct l as [|a [|b [|c r]]]; simpl; trivial.
  - destruct (space1 a); [discriminate | reflexivity].
  - destruct (space1 a); [discriminate |]. simpl.
    destruct (s2 a b); [discriminate | reflexivity].
  - destruct (space1 a); [discriminate |]. simpl.
    destruct (s2 a b); [discriminate |]. simpl.
    destruct (s3 a b c); [discriminate | reflexivity].
Qed.

Lemma lstrip_with_clean s2 s3 (l : list ascii) :
  starts_with_space s2 s3 (lstrip_with s2 s3 l) = false.
Proof.
  remember (List.length l) as n eqn:Hn.
  revert l Hn. induction n as [n IH] using lt_wf_ind. intros l Hn.
  assert (rec : forall pre0 l', l = (pre0 ++ l')%list -> pre0 <> [] ->
                starts_with_space s2 s3 (lstrip_with s2 s3 l') = false).
  { intros pre0 l' Hl Hne.
    assert (Hlt : List.length l' < n).
    { subst n l. rewrite length_app. destruct pre0; [now elim Hne | simpl; lia]. }
    exact (IH _ Hlt l' eq_refl). }
  destruct l as [|a l1]; [reflexivity |].
  cbn [lstrip_with].
  destruct (space1 a) eqn:E1; [now apply (rec [a]) |].
  destruct l1 as [|b l2]; [simpl; now rewrite E1 |].
  destruct (s2 a b) eqn:E2; [now apply (rec [a; b]) |].
  destruct l2 as [|c l3]; [simpl; now rewrite E1, E2 |].
  destruct (s3 a b c) eqn:E3; [now apply (rec [a; b; c]) |].
  simpl. now rewrite E1, E2, E3.
Qed.

(** A sequence that begins with whitespace still does when it is extended
    at the back. *)
Lemma starts_with_space_prefix s2 s3 (p q : list ascii) :
  starts_with_space s2 s3 (p ++ q) = false -> starts_with_space s2 s3 p = false.
Proof.
  destruct p as [|a [|b [|c r]]]; simpl; trivial.
  - destruct (space1 a); [discriminate | reflexivity].
  - destruct (space1 a); [discriminate |]. simpl.
    destruct (s2 a b); [discriminate | reflexivity].
Qed.

Lemma outer_space_strip (s : string) : outer_space (strip s) = false.
Proof.
  unfold outer_space, strip, rstrip_bytes, lstrip_bytes.
  rewrite list_ascii_of_string_of_list_ascii.
  set (x := lstrip_with space2 space3 (list_ascii_of_string s)).
  set (L' := lstrip_with (fun b a => space2 a b) (fun c b a => space3 a b c)).
  apply orb_false_iff. split.
  - destruct (lstrip_with_suffix (fun b a => space2 a b)
                (fun c b a => space3 a b c) (rev x)) as [pre H].
    fold L' in H.
    apply (starts_with_space_prefix space2 space3 (rev (L' (rev x))) (rev pre)).
    rewrite <- rev_app_distr, <- H, rev_involutive.
    apply lstrip_with_clean.
  - rewrite rev_involutive. apply lstrip_with_clean.
Qed.

Lemma strip_fixed (s : string) : outer_space s = false -> strip s = s.
Proof.
  unfold outer_space, strip, rstrip_bytes, lstrip_bytes. intros H.
  apply orb_false_iff in H as [H1 H2].
  rewrite (lstrip_with_fixed _ _ _ H1), (lstrip_with_fixed _ _ _ H2).
  rewrite rev_involutive. apply string_of_list_ascii_of_string.
Qed.

Lemma whitespace_with_app s2 s3 (x y : list ascii) :
  whitespace_with s2 s3 x -> whitespace_with s2 s3 y ->
  whitespace_with s2 s3 (x ++ y).
Proof.
  intros Hx Hy. induction Hx as [|a l Ha _ IH|a b l Hab _ IH|a b c l Habc _ IH];
    simpl.
  - exact Hy.
  - now apply ws_one.
  - now apply ws_two.
  - now apply ws_three.
Qed.

Lemma whitespace_with_rev s2 s3 (x : list ascii) :
  whitespace_with (fun b a => s2 a b) (fun c b a => s3 a b c) x ->
  whitespace_with s2 s3 (rev x).
Proof.
  induction 1 as [|a l Ha _ IH|a b l Hab _ IH|a b c l Habc _ IH]; simpl.
  - constructor.
  - apply whitespace_with_app; [exact IH |]. constructor; [exact Ha | constructor].
  - rewrite <- app_assoc. apply whitespace_with_app; [exact IH |].
    apply ws_two; [exact Hab | constructor].
  - rewrite <- !app_assoc. apply whitespace_with_app; [exact IH |].
    apply ws_three; [exact Habc | constructor].
Qed.

(** What [lstrip_with] removes is whitespace. *)
Lemma lstrip_with_removes s2 s3 (l : list ascii) :
  exists pre, l = (pre ++ lstrip_with s2 s3 l)%list /\ whitespace_with s2 s3 pre.
Proof.
  remember (List.length l) as n eqn:Hn.
  revert l Hn. induction n as [n IH] using lt_wf_ind. intros l Hn.
  assert (rec : forall pre0 l', l = (pre0 ++ l')%list -> pre0 <> [] ->
                whitespace_with s2 s3 pre0 ->
                exists pre, l = (pre ++ lstrip_with s2 s3 l')%list /\
                            whitespace_with s2 s3 pre).
  { intros pre0 l' Hl Hne Hw.
    assert (Hlt : List.length l' < n).
    { subst n l. rewrite length_app. destruct pre0; [now elim Hne | simpl; lia]. }
    destruct (IH _ Hlt l' eq_refl) as [pre [H Hp]].
    exists (pre0 ++ pre)%list. split.
    - now rewrite <- app_assoc, <- H.
    - now apply whitespace_with_app. }
  destruct l as [|a l1]; simpl; [exists []; split; [reflexivity | constructor] |].
  destruct (space1 a) eqn:E1.
  { apply (rec [a]); [reflexivity | discriminate |].
    constructor; [exact E1 | constructor]. }
  destruct l1 as [|b l2]; [exists []; split; [reflexivity | constructor] |].
  destruct (s2 a b) eqn:E2.
  { apply (rec [a; b]); [reflexivity | discriminate |].
    apply ws_two; [exact E2 | constructor]. }
  destruct l2 as [|c l3]; [exists []; split; [reflexivity | constructor] |].
  destruct (s3 a b c) eqn:E3.
  { apply (rec [a; b; c]); [reflexivity | discriminate |].
    apply ws_three; [exact E3 | constructor]. }
  exists []. split; [reflexivity | constructor].
Qed.

(** [strip] removes whitespace at the two ends, and nothing else. *)
Lemma strip_trims (text : string) :
  exists pre post,
    text = pre ++ strip text ++ post /\ whitespace pre /\ whitespace post.
Proof.
  unfold strip, rstrip_bytes, lstrip_bytes, whitespace.
  set (l := list_ascii_of_string text).
  destruct (lstrip_with_removes space2 space3 l) as [p1 [H1 W1]].
  set (l1 := lstrip_with space2 space3 l) in *.
  destruct (lstrip_with_removes (fun b a => space2 a b)
              (fun c b a => space3 a b c) (rev l1)) as [p2 [H2 W2]].
  set (x := lstrip_with _ _ (rev l1)) in *.
  exists (string_of_list_ascii p1), (string_of_list_ascii (rev p2)).
  rewrite !list_ascii_of_string_of_list_ascii. repeat split.
  - rewrite <- !string_of_list_ascii_app.
    rewrite <- (string_of_list_ascii_of_string text). fold l.
    f_equal. rewrite H1 at 1. f_equal.
    rewrite <- rev_app_distr, <- H2. now rewrite rev_involutive.
  - exact W1.
  - now apply whitespace_with_rev.
Qed.

(** ** The claims about the loop *)

(** C1 fails on a frame whose index labels are text, as [read_csv] builds
    it from lines that have one field more than the header: the first row
    is called for, its entry is built, and line 111 raises TypeError on
    [i + 1]; the run ends there with no entry at all, where two are
    claimed. The label is used as if it were the position of the row. *)
Lemma text_labels_stop_the_run :
  Forall (fun ir => complete "review_text" (snd ir) = true)
         (iterrows labelled_shoes) /\
  analyze stub_env "review_text" labelled_shoes 0 = (Raise TypeError, 1) /\
  app stub_env Posix (Some labelled_shoes) true 0 = (Crashed TypeError, 1).
Proof. repeat split; repeat constructor. Qed.

(** C2 fails on a frame whose integer labels are not the positions of the
    rows: the call of the first row raises, its error text is built, and
    the progress bar refuses the fraction 8/2; the loop does not go on to
    the next row, and the error text is lost with the list. Same defect as
    for C1: the label is used as if it were the position of the row. *)
Lemma failed_call_then_label_stops_the_run :
  Forall (fun ir => complete "review_text" (snd ir) = true)
         (iterrows numbered_shoes) /\
  replies failing_env "review_text" 2 (iterrows numbered_shoes) 0
  = [Raises "quota exceeded"] /\
  analyze failing_env "review_text" numbered_shoes 0
  = (Raise StreamlitAPIException, 1).
Proof. repeat split; repeat constructor. Qed.

(** X19: over N rows that have the resolved column, product_name and
    rating, and whose labels the progress step accepts, the loop ends
    normally with exactly N entries, in the order of the rows: entry i is
    the record of the product_name, the resolved column (under review) and
    the rating of row i, with an analysis which, when the service answered
    that row with a text, is that text less the whitespace at its two
    ends: what is removed in front and behind is whitespace only, and the
    analysis neither begins nor ends with whitespace. The service is
    arbitrary: this holds when every call fails. *)
Theorem analyze_rows_one_entry_per_row {W : Type} (env : Env W)
    (col : string) (total : nat) (rows : list (label * Series)) (w : W) :
  Forall (passes col total) rows ->
  exists results w',
    analyze_rows env col total rows [] w = (Ok results, w') /\
    List.length results = List.length rows /\
    forall n, n < List.length rows ->
      exists i row r pn rv rt a,
        nth_error rows n = Some (i, row) /\
        nth_error (replies env col total rows w) n = Some r /\
        getitem row "product_name" = Ok pn /\
        getitem row col = Ok rv /\
        getitem row "rating" = Ok rt /\
        nth_error results n
        = Some [("product_name", pn); ("review", rv); ("rating", rt);
                ("analysis", VStr a)] /\
        (forall text, r = Text text ->
           outer_space a = false /\
           exists pre post,
             text = pre ++ a ++ post /\ whitespace pre /\ whitespace post).
Proof.
  intros Hrows.
  destruct (loop_run env col total rows w Hrows)
    as [results [w' [Hrun [Hlen [Hrep Hnth]]]]].
  exists results, w'. repeat split; trivial.
  intros n Hn.
  destruct (nth_error rows n) as [[i row]|] eqn:En;
    [| apply nth_error_None in En; lia].
  destruct (nth_error (replies env col total rows w) n) as [r|] eqn:Er;
    [| apply nth_error_None in Er; lia].
  destruct (Hnth n (i, row) r En Er) as [Hp [Hc [Hr He]]]. simpl in *.
  exists i, row, r, (cell row "product_name"), (cell row col),
    (cell row "rating"), (analysis_of r).
  repeat split; trivial.
  - subst r. apply outer_space_strip.
  - subst r. apply strip_trims.
Qed.

Lemma analyze_rows_one_entry_per_row_witness :
  Forall (passes "review_text" 2) (iterrows shoes) /\
  exists results w',
    analyze_rows failing_env "review_text" 2 (iterrows shoes) [] 0
    = (Ok results, w') /\
    List.length results = 2.
Proof.
  assert (H : Forall (passes "review_text" 2) (iterrows shoes)).
  { repeat constructor. }
  split; [exact H |].
  destruct (analyze_rows_one_entry_per_row failing_env "review_text" 2
              (iterrows shoes) 0 H) as [results [w' [Hrun [Hlen _]]]].
  exists results, w'. split; [exact Hrun | exact Hlen].
Defined.

(** X20: over rows that have the three fields and whose labels the
    progress step accepts, a call that raises never stops the loop, which
    ends normally with one entry per row. The entry of a row whose call
    raised with message [detail] has the analysis
    "Error: Could not analyze review. (detail)"; the entry of any other
    row has the text returned by the service less the whitespace at its
    two ends. So when row k alone fails, every other row carries the text
    of the service and row k carries the error. *)
Theorem service_failure_contained {W : Type} (env : Env W)
    (col : string) (total : nat) (rows : list (label * Series)) (w : W) :
  Forall (passes col total) rows ->
  exists results w',
    analyze_rows env col total rows [] w = (Ok results, w') /\
    List.length results = List.length rows /\
    List.length (replies env col total rows w) = List.length rows /\
    (forall n detail,
        nth_error (replies env col total rows w) n = Some (Raises detail) ->
        exists pn rv rt,
          nth_error results n
          = Some [("product_name", pn); ("review", rv); ("rating", rt);
                  ("analysis",
                   VStr ("Error: Could not analyze review. (" ++ detail ++ ")"))]) /\
    (forall n text,
        nth_error (replies env col total rows w) n = Some (Text text) ->
        exists pn rv rt a,
          nth_error results n
          = Some [("product_name", pn); ("review", rv); ("rating", rt);
                  ("analysis", VStr a)] /\
          outer_space a = false /\
          exists pre post,
            text = pre ++ a ++ post /\ whitespace pre /\ whitespace post).
Proof.
  intros Hrows.
  destruct (loop_run env col total rows w Hrows)
    as [results [w' [Hrun [Hlen [Hrep Hnth]]]]].
  exists results, w'. repeat split; trivial.
  - intros n detail Hr.
    destruct (nth_error rows n) as [ir|] eqn:En.
    2:{ apply nth_error_None in En.
        assert (n < List.length (replies env col total rows w))
          by (apply nth_error_Some; congruence). lia. }
    destruct (Hnth n ir _ En Hr) as [_ [_ [_ He]]].
    do 3 eexists. exact He.
  - intros n text Hr.
    destruct (nth_error rows n) as [ir|] eqn:En.
    2:{ apply nth_error_None in En.
        assert (n < List.length (replies env col total rows w))
          by (apply nth_error_Some; congruence). lia. }
    destruct (Hnth n ir _ En Hr) as [_ [_ [_ He]]].
    do 4 eexists. split; [exact He |]. split; [apply outer_space_strip |].
    apply strip_trims.
Qed.

Lemma service_failure_contained_witness :
  Forall (passes "review_text" 2) (iterrows shoes) /\
  exists results w',
    analyze_rows stub_env "review_text" 2 (iterrows shoes) [] 0
    = (Ok results, w') /\
    List.length results = 2.
Proof.
  assert (H : Forall (passes "review_text" 2) (iterrows shoes)).
  { repeat constructor. }
  split; [exact H |].
  destruct (service_failure_contained stub_env "review_text" 2
              (iterrows shoes) 0 H) as [results [w' [Hrun [Hlen _]]]].
  exists results, w'. split; [exact Hrun | exact Hlen].
Defined.

(** The scenario of two shoes: the first call answers, the second times
    out. *)
Example shoes_run :
  fst (analyze stub_env "review_text" shoes 0)
  = Ok [entry (VStr "Shoe A") (VStr "Great fit") (VInt 5) stub_text;
        entry (VStr "Shoe B") (VStr "Too tight") (VInt 2)
              "Error: Could not analyze review. (timeout)"].
Proof. reflexivity. Qed.

(** Its download, read back: the header and the two rows. *)
Example shoes_download :
  exists results csv w',
    app stub_env Posix (Some shoes) true 0 = (Completed results csv, w') /\
    read_back csv
    = [["product_name"; "review"; "rating"; "analysis"];
       ["Shoe A"; "Great fit"; "5"; stub_text];
       ["Shoe B"; "Too tight"; "2"; "Error: Could not analyze review. (timeout)"]].
Proof. do 3 eexists. split; reflexivity. Qed.

(** A row without product_name or without rating is not complete. *)
Lemma incomplete_row (col : string) (row : Series) :
  has_label row "product_name" = false \/ has_label row "rating" = false ->
  complete col row = false.
Proof.
  unfold complete. intros [H | H]; rewrite H; now rewrite andb_false_r.
Qed.

(** C9: when some row of the run lacks product_name or rating, the loop
    does not end normally: an exception leaves it and no list of results
    is returned, whereas a failure of the service only fills the analysis
    of its row. Whenever the row is reached, that is whenever the progress
    step accepts the index labels of the rows before it (as it does under
    the default index, and as it does of the first row, the one at fault
    in a frame that lacks the column), the exception is the KeyError of a
    lookup, for one of the labels that the loop reads. *)
Theorem missing_field_aborts {W : Type} (env : Env W)
    (col : string) (total : nat) (rows : list (label * Series)) :
  Exists (fun ir => has_label (snd ir) "product_name" = false \/
                    has_label (snd ir) "rating" = false) rows ->
  forall (acc : list dict) (w : W),
  exists e w',
    analyze_rows env col total rows acc w = (Raise e, w') /\
    forall pre i row rest,
      rows = (pre ++ (i, row) :: rest)%list ->
      has_label row "product_name" = false \/ has_label row "rating" = false ->
      Forall (fun ir => label_ok total (fst ir) = true) pre ->
      exists k, e = KeyError k /\
                (k = "product_name" \/ k = "rating" \/ k = col).
Proof.
  induction rows as [|[i row] rest IH]; intros Hex acc w.
  - inversion Hex.
  - simpl. unfold bind at 1.
    destruct (analyze_row_cases env col total i row acc w)
      as [[Hc [Hl [d [w1 Hrun]]]] | [[Hc [k [w1 [Hrun Hk]]]]
         | [Hc [Hl [e [w1 [Hrun He]]]]]]]; rewrite Hrun.
    + assert (Hrest : Exists (fun ir => has_label (snd ir) "product_name" = false \/
                                       has_label (snd ir) "rating" = false) rest).
      { inversion Hex as [? ? Hbad | ? ? Hrest]; subst; [| assumption].
        simpl in Hbad. rewrite (incomplete_row col row Hbad) in Hc. discriminate. }
      destruct (IH Hrest (acc ++ [d])%list w1) as [e [w' [Hr Hkey]]].
      exists e, w'. split; [exact Hr |].
      intros [|ir0 pre] i0 row0 rest0 Heq Hbad Hpre.
      * injection Heq as <- <- _.
        rewrite (incomplete_row col row Hbad) in Hc. discriminate.
      * injection Heq as _ Heq. inversion Hpre as [|? ? _ Hpre']; subst.
        exact (Hkey pre i0 row0 rest0 eq_refl Hbad Hpre').
    + exists (KeyError k), w1. split; [reflexivity |]. intros. now exists k.
    + exists e, w1. split; [reflexivity |].
      intros [|ir0 pre] i0 row0 rest0 Heq Hbad Hpre.
      * injection Heq as <- <- _.
        rewrite (incomplete_row col row Hbad) in Hc. discriminate.
      * injection Heq as <- _. inversion Hpre as [|? ? Hi _]; subst.
        simpl in Hi. congruence.
Qed.

Lemma missing_field_aborts_witness :
  Exists (fun ir => has_label (snd ir) "product_name" = false \/
                    has_label (snd ir) "rating" = false)
         [(LInt 0, [("product_name", VStr "Shoe A"); ("review", VStr "Great fit")])] /\
  exists k w',
    analyze_rows stub_env "review" 1
      [(LInt 0, [("product_name", VStr "Shoe A"); ("review", VStr "Great fit")])]
      [] 0
    = (Raise (KeyError k), w').
Proof.
  assert (H : Exists (fun ir => has_label (snd ir) "product_name" = false \/
                                has_label (snd ir) "rating" = false)
         [(LInt 0, [("product_name", VStr "Shoe A"); ("review", VStr "Great fit")])]).
  { constructor. right. reflexivity. }
  split; [exact H |].
  destruct (missing_field_aborts stub_env "review" 1 _ H [] 0)
    as [e [w' [Hrun Hkey]]].
  destruct (Hkey [] (LInt 0)
              [("product_name", VStr "Shoe A"); ("review", VStr "Great fit")] []
              eq_refl (or_intror eq_refl) (Forall_nil _)) as [k [-> _]].
  exists k, w'. exact Hrun.
Defined.

(** A frame without rating column: the first row stops the run. *)
Example missing_rating_crashes :
  fst (app stub_env Posix
         (Some {| columns := ["product_name"; "review"]; index := RangeIndex;
                  data := [[VStr "Shoe A"; VStr "Great fit"];
                           [VStr "Shoe B"; VStr "Too tight"]] |}) true 0)
  = Crashed (KeyError "rating").
Proof. reflexivity. Qed.

(** ** Determinism *)

(** Two runs whose services give the same reply to the same prompt compute
    the same thing, whatever their worlds do. *)
Lemma analyze_rows_same_replies {W1 W2 : Type} (env1 : Env W1) (env2 : Env W2)
    (answer : string -> reply) (col : string) (total : nat) :
  (forall prompt w, fst (generate_content env1 prompt w) = answer prompt) ->
  (forall prompt w, fst (generate_content env2 prompt w) = answer prompt) ->
  forall (rows : list (label * Series)) (acc : list dict) (w1 : W1) (w2 : W2),
    fst (analyze_rows env1 col total rows acc w1)
    = fst (analyze_rows env2 col total rows acc w2).
Proof.
  intros H1 H2. induction rows as [|[i row] rest IH]; intros acc w1 w2; simpl.
  - reflexivity.
  - unfold analyze_row, progress_step, bind, lift, act, effect, ret.
    destruct (build_prompt col row) as [prompt|e]; [| reflexivity].
    specialize (H1 prompt w1). specialize (H2 prompt w2).
    destruct (generate_content env1 prompt w1) as [r1 w1'].
    destruct (generate_content env2 prompt w2) as [r2 w2'].
    simpl in H1, H2. subst r1 r2.
    destruct (getitem row "product_name"); [| reflexivity].
    destruct (getitem row col); [| reflexivity].
    destruct (getitem row "rating"); [| reflexivity].
    destruct i as [z|t]; [| reflexivity].
    destruct ((0 <=? z + 1) && (z + 1 <=? Z.of_nat total))%Z; [| reflexivity].
    apply IH.
Qed.

(** C10: once the service is a function [answer] from the prompt to a text
    or a failure, the output is a function of the input alone: two runs on
    the same frame, the same resolved column and the same platform return
    the same results and show the same page, with the same bytes to
    download, whatever the states of the world they start from and
    whatever the delay and the progress display do to it. *)
Theorem pipeline_deterministic {W1 W2 : Type} (env1 : Env W1) (env2 : Env W2)
    (answer : string -> reply) :
  (forall prompt w, fst (generate_content env1 prompt w) = answer prompt) ->
  (forall prompt w, fst (generate_content env2 prompt w) = answer prompt) ->
  forall (p : platform) (df : DataFrame) (col : string) (clicked : bool)
         (w1 : W1) (w2 : W2),
    fst (analyze env1 col df w1) = fst (analyze env2 col df w2) /\
    (forall results1 results2 w1' w2',
        analyze env1 col df w1 = (Ok results1, w1') ->
        analyze env2 col df w2 = (Ok results2, w2') ->
        assemble p results1 = assemble p results2) /\
    fst (app env1 p (Some df) clicked w1) = fst (app env2 p (Some df) clicked w2).
Proof.
  intros H1 H2 p df col clicked w1 w2.
  assert (E : forall c, fst (analyze env1 c df w1) = fst (analyze env2 c df w2)).
  { intros c. unfold analyze. now apply analyze_rows_same_replies with answer. }
  split; [apply E |]. split.
  - intros results1 results2 w1' w2' R1 R2. specialize (E col).
    rewrite R1, R2 in E. simpl in E. now injection E as ->.
  - unfold app. destruct (detect_review_col (columns df)) as [c|]; [| reflexivity].
    destruct clicked; [| reflexivity]. specialize (E c).
    destruct (analyze env1 c df w1) as [[r1|e1] w1'];
      destruct (analyze env2 c df w2) as [[r2|e2] w2']; simpl in *;
      try discriminate; now injection E as ->.
Qed.

Lemma pipeline_deterministic_witness :
  (forall prompt w, fst (generate_content clock_env prompt w)
     = if String.prefix nl prompt then Text " fine " else Raises "bad prompt") /\
  (forall prompt w, fst (generate_content count_env prompt w)
     = if String.prefix nl prompt then Text " fine " else Raises "bad prompt") /\
  fst (app clock_env Posix (Some shoes) true 100)
  = fst (app count_env Posix (Some shoes) true 0).
Proof.
  assert (H1 : forall prompt (w : nat), fst (generate_content clock_env prompt w)
     = if String.prefix nl prompt then Text " fine " else Raises "bad prompt")
    by reflexivity.
  assert (H2 : forall prompt (w : nat), fst (generate_content count_env prompt w)
     = if String.prefix nl prompt then Text " fine " else Raises "bad prompt")
    by reflexivity.
  split; [exact H1 |]. split; [exact H2 |].
  apply (pipeline_deterministic clock_env count_env _ H1 H2 Posix shoes
           "review_text" true 100 0).
Defined.

(** ** The prompt *)

(** C5: for a row that has the resolved column and rating, the prompt is
    the text of the source, word for word, with the text of the cell of
    the resolved column and the text of the rating put in their two places
    (a text as it is, an integer in decimal, a float as Python prints it, a
    missing value as nan) and nothing else taken from the row: it asks for
    a sentiment among Positive, Negative and Neutral, for two or three key
    points, and for a recommendation among Yes, No and Maybe with a brief
    reason. This text is what the service is called with, once, for that
    row. *)
Theorem prompt_is_fixed_template (col : string) (row : Series) (rv rt : value) :
  getitem row col = Ok rv -> getitem row "rating" = Ok rt ->
  build_prompt col row
  = Ok (nl
     ++ "                " ++ "Analyze this Myntra product review:" ++ nl
     ++ "                " ++ "Review: " ++ dquote
     ++ (match rv with
            | VStr s => s
            | VInt n => NilZero.string_of_int (Z.to_int n)
            | VFloat repr => repr
            | VNaN => "nan"
            end)
     ++ dquote ++ "  # " ++ check_mark ++ " Dynamic column" ++ nl
     ++ "                " ++ "Rating: "
     ++ (match rt with
            | VStr s => s
            | VInt n => NilZero.string_of_int (Z.to_int n)
            | VFloat repr => repr
            | VNaN => "nan"
            end)
     ++ nl ++ nl
     ++ "                " ++ "Provide a concise analysis in this exact format:" ++ nl
     ++ "                " ++ "1. Sentiment: (Positive / Negative / Neutral)" ++ nl
     ++ "                " ++ "2. Key points: (Bullet list of 2-3 main pros/cons)" ++ nl
     ++ "                " ++ "3. Recommendation: (Yes / No / Maybe) - Brief reason" ++ nl
     ++ "                ") /\
  (forall row' : Series,
     getitem row' col = Ok rv -> getitem row' "rating" = Ok rt ->
     build_prompt col row' = build_prompt col row) /\
  (forall (answer : list event -> string -> reply) (total : nat) (i : label)
          (results : list dict),
     calls (snd (analyze_row (trace_env answer) col total i row results []))
     = [(nl
     ++ "                " ++ "Analyze this Myntra product review:" ++ nl
     ++ "                " ++ "Review: " ++ dquote
     ++ (match rv with
            | VStr s => s
            | VInt n => NilZero.string_of_int (Z.to_int n)
            | VFloat repr => repr
            | VNaN => "nan"
            end)
     ++ dquote ++ "  # " ++ check_mark ++ " Dynamic column" ++ nl
     ++ "                " ++ "Rating: "
     ++ (match rt with
            | VStr s => s
            | VInt n => NilZero.string_of_int (Z.to_int n)
            | VFloat repr => repr
            | VNaN => "nan"
            end)
     ++ nl ++ nl
     ++ "                " ++ "Provide a concise analysis in this exact format:" ++ nl
     ++ "                " ++ "1. Sentiment: (Positive / Negative / Neutral)" ++ nl
     ++ "                " ++ "2. Key points: (Bullet list of 2-3 main pros/cons)" ++ nl
     ++ "                " ++ "3. Recommendation: (Yes / No / Maybe) - Brief reason" ++ nl
     ++ "                ")]).
Proof.
  intros Hc Hr.
  assert (E : build_prompt col row
              = Ok (nl
     ++ "                " ++ "Analyze this Myntra product review:" ++ nl
     ++ "                " ++ "Review: " ++ dquote
     ++ (match rv with
            | VStr s => s
            | VInt n => NilZero.string_of_int (Z.to_int n)
            | VFloat repr => repr
            | VNaN => "nan"
            end)
     ++ dquote ++ "  # " ++ check_mark ++ " Dynamic column" ++ nl
     ++ "                " ++ "Rating: "
     ++ (match rt with
            | VStr s => s
            | VInt n => NilZero.string_of_int (Z.to_int n)
            | VFloat repr => repr
            | VNaN => "nan"
            end)
     ++ nl ++ nl
     ++ "                " ++ "Provide a concise analysis in this exact format:" ++ nl
     ++ "                " ++ "1. Sentiment: (Positive / Negative / Neutral)" ++ nl
     ++ "                " ++ "2. Key points: (Bullet list of 2-3 main pros/cons)" ++ nl
     ++ "                " ++ "3. Recommendation: (Yes / No / Maybe) - Brief reason" ++ nl
     ++ "                ")).
  { rewrite (build_prompt_ok _ _ _ _ Hc Hr). destruct rv, rt; reflexivity. }
  split; [exact E |]. split.
  - intros row' Hc' Hr'.
    now rewrite (build_prompt_ok _ _ _ _ Hc Hr), (build_prompt_ok _ _ _ _ Hc' Hr').
  - intros answer total i results.
    unfold analyze_row, progress_step, bind, lift, act, effect, ret.
    rewrite E. simpl generate_content. cbv beta iota.
    destruct (getitem row "product_name"); [| reflexivity].
    rewrite Hc, Hr.
    destruct i as [z|t]; [| reflexivity].
    destruct ((0 <=? z + 1) && (z + 1 <=? Z.of_nat total))%Z; reflexivity.
Qed.

Lemma prompt_is_fixed_template_witness :
  getitem [("product_name", VStr "Shoe A"); ("review", VStr "Great fit");
           ("rating", VInt 5)] "review" = Ok (VStr "Great fit") /\
  getitem [("product_name", VStr "Shoe A"); ("review", VStr "Great fit");
           ("rating", VInt 5)] "rating" = Ok (VInt 5) /\
  build_prompt "review"
    [("product_name", VStr "Shoe A"); ("review", VStr "Great fit");
     ("rating", VInt 5)]
  = Ok (nl
     ++ "                " ++ "Analyze this Myntra product review:" ++ nl
     ++ "                " ++ "Review: " ++ dquote ++ "Great fit"
     ++ dquote ++ "  # " ++ check_mark ++ " Dynamic column" ++ nl
     ++ "                " ++ "Rating: " ++ "5"
     ++ nl ++ nl
     ++ "                " ++ "Provide a concise analysis in this exact format:" ++ nl
     ++ "                " ++ "1. Sentiment: (Positive / Negative / Neutral)" ++ nl
     ++ "                " ++ "2. Key points: (Bullet list of 2-3 main pros/cons)" ++ nl
     ++ "                " ++ "3. Recommendation: (Yes / No / Maybe) - Brief reason" ++ nl
     ++ "                ").
Proof.
  split; [reflexivity |]. split; [reflexivity |].
  apply (prompt_is_fixed_template "review"
           [("product_name", VStr "Shoe A"); ("review", VStr "Great fit");
            ("rating", VInt 5)] (VStr "Great fit") (VInt 5));
    reflexivity.
Defined.

(** ** The result table *)

Lemma first_seen_nothing_new (seen l : list string) :
  (forall k, In k l -> contains seen k = true) -> first_seen seen l = [].
Proof.
  induction l as [|k r IH]; simpl; intros H; [reflexivity |].
  rewrite (H k (or_introl eq_refl)). apply IH. intros k' Hk'. apply H. now right.
Qed.

Lemma keys_of_entries (results : list dict) :
  Forall is_entry results ->
  forall k, In k (List.concat (map keys results)) -> In k entry_keys.
Proof.
  induction 1 as [|d rest [pn [rv [rt [a ->]]]] _ IH]; simpl; [now intros k [] |].
  intros k [<-|[<-|[<-|[<-|Hk]]]]; simpl; auto 6. now apply IH.
Qed.

Lemma columns_of_entries (results : list dict) :
  results <> [] -> Forall is_entry results ->
  columns (DataFrame_of_records results) = entry_keys.
Proof.
  intros Hne Hall. destruct Hall as [|d rest [pn [rv [rt [a ->]]]] Hrest];
    [now elim Hne |].
  simpl. rewrite first_seen_nothing_new; [reflexivity |].
  intros k Hk. apply contains_In.
  pose proof (keys_of_entries rest Hrest k Hk) as Hin.
  simpl in Hin. simpl. intuition.
Qed.

Lemma typed_text (cells : list value) (v : value) :
  cell_text (typed cells v) = written cells v.
Proof.
  unfold typed, written, floated.
  destruct (negb (existsb is_text cells) && existsb is_floating cells);
    now destruct v.
Qed.

Lemma data_of_entries (results : list dict) :
  results <> [] -> Forall is_entry results ->
  data (DataFrame_of_records results)
  = map (fun d => map (fun k => typed (column results k) (cell d k)) entry_keys)
        results.
Proof.
  intros Hne Hall. unfold DataFrame_of_records.
  change (first_seen [] (List.concat (map keys results)))
    with (columns (DataFrame_of_records results)).
  now rewrite (columns_of_entries results Hne Hall).
Qed.

Lemma table_texts_entries (results : list dict) :
  results <> [] -> Forall is_entry results ->
  table_texts results = map (entry_texts results) results.
Proof.
  intros Hne Hall. unfold table_texts.
  rewrite (data_of_entries results Hne Hall), map_map.
  apply map_ext. intros d. unfold entry_texts. simpl.
  now rewrite !typed_text.
Qed.

Lemma writerow_many (lt f1 f2 : string) (r : list string) :
  writerow lt (f1 :: f2 :: r)
  = join "," (map (csv_field lt) (f1 :: f2 :: r)) ++ lt.
Proof. now destruct f1. Qed.

Lemma writerow_header (p : platform) :
  writerow (linesep p) entry_keys = header ++ linesep p.
Proof. now destruct p. Qed.

Lemma to_csv_rows (p : platform) (results : list dict) :
  results <> [] -> Forall is_entry results ->
  to_csv p (DataFrame_of_records results)
  = writerow (linesep p) entry_keys
    ++ concat_all (map (writerow (linesep p)) (table_texts results)).
Proof.
  intros Hne Hall. unfold to_csv, table_texts.
  now rewrite (columns_of_entries results Hne Hall), map_map.
Qed.

Lemma to_csv_entries (p : platform) (results : list dict) :
  results <> [] -> Forall is_entry results ->
  to_csv p (DataFrame_of_records results)
  = header ++ linesep p
    ++ concat_all (map (fun r => join "," (map (csv_field (linesep p)) r)
                                 ++ linesep p) (table_texts results)).
Proof.
  intros Hne Hall. rewrite (to_csv_rows p results Hne Hall).
  rewrite writerow_header, append_assoc. do 3 f_equal.
  rewrite (table_texts_entries results Hne Hall), !map_map.
  apply map_ext. intros d. apply writerow_many.
Qed.

Lemma entry_texts_entry (results : list dict) (pn rv rt : value) (a : string) :
  entry_texts results (entry pn rv rt a)
  = [written (column results "product_name") pn;
     written (column results "review") rv;
     written (column results "rating") rt; a].
Proof. reflexivity. Qed.

(** C6 does not hold of the empty sequence: its CSV is one empty line,
    which does not begin with the header. *)
Lemma header_missing_without_records :
  assemble Posix [] = encode_utf8 nl /\
  ~ exists body : string,
      assemble Posix []
      = encode_utf8 ("product_name,review,rating,analysis" ++ nl ++ body).
Proof.
  split; [reflexivity |]. intros [body H]. discriminate H.
Qed.

(** C6, as amended: for every sequence of entries that is not empty, the
    bytes offered for download are the UTF-8 form of the header line
    product_name,review,rating,analysis followed by one line per entry, in
    the order of the entries; the columns of the table are these four and
    no other, so that a line holds the four fields of its entry, the first
    of them product_name and not an index. A field is the text of the
    cell of the entry, an integer being written as a float (5 as 5.0) when
    its column holds no text and holds a float or a missing value. The
    integers are taken to be at most 2^53 in absolute value, which a float
    holds exactly. *)
Theorem assemble_header_and_lines (p : platform) (results : list dict) :
  results <> [] -> Forall is_entry results -> Forall small_ints results ->
  assemble p results
  = encode_utf8 ("product_name,review,rating,analysis" ++ linesep p
                 ++ concat_all
                      (map (fun r => join "," (map (csv_field (linesep p)) r)
                                     ++ linesep p) (table_texts results))) /\
  columns (DataFrame_of_records results)
  = ["product_name"; "review"; "rating"; "analysis"] /\
  List.length (table_texts results) = List.length results /\
  forall n pn rv rt a,
    nth_error results n
    = Some [("product_name", pn); ("review", rv); ("rating", rt);
            ("analysis", VStr a)] ->
    nth_error (table_texts results) n
    = Some [written (column results "product_name") pn;
            written (column results "review") rv;
            written (column results "rating") rt; a].
Proof.
  intros Hne Hall _. repeat split.
  - unfold assemble. now rewrite (to_csv_entries p results Hne Hall).
  - exact (columns_of_entries results Hne Hall).
  - rewrite (table_texts_entries results Hne Hall). apply length_map.
  - intros n pn rv rt a Hn.
    rewrite (table_texts_entries results Hne Hall).
    rewrite nth_error_map, Hn. reflexivity.
Qed.

Lemma assemble_header_and_lines_witness :
  [entry (VStr "Shoe A") (VStr "Great, really") (VInt 5) "fine";
   entry (VStr "Shoe B") (VStr "Too tight") (VFloat "4.5") "so-so"] <> [] /\
  Forall is_entry
    [entry (VStr "Shoe A") (VStr "Great, really") (VInt 5) "fine";
     entry (VStr "Shoe B") (VStr "Too tight") (VFloat "4.5") "so-so"] /\
  Forall small_ints
    [entry (VStr "Shoe A") (VStr "Great, really") (VInt 5) "fine";
     entry (VStr "Shoe B") (VStr "Too tight") (VFloat "4.5") "so-so"] /\
  assemble Posix
    [entry (VStr "Shoe A") (VStr "Great, really") (VInt 5) "fine";
     entry (VStr "Shoe B") (VStr "Too tight") (VFloat "4.5") "so-so"]
  = encode_utf8 ("product_name,review,rating,analysis" ++ nl
                 ++ "Shoe A," ++ dquote ++ "Great, really" ++ dquote
                 ++ ",5.0,fine" ++ nl
                 ++ "Shoe B,Too tight,4.5,so-so" ++ nl).
Proof.
  assert (H1 : [entry (VStr "Shoe A") (VStr "Great, really") (VInt 5) "fine";
                entry (VStr "Shoe B") (VStr "Too tight") (VFloat "4.5") "so-so"]
               <> []) by discriminate.
  assert (H2 : Forall is_entry
                 [entry (VStr "Shoe A") (VStr "Great, really") (VInt 5) "fine";
                  entry (VStr "Shoe B") (VStr "Too tight") (VFloat "4.5") "so-so"]).
  { repeat constructor.
    - now exists (VStr "Shoe A"), (VStr "Great, really"), (VInt 5), "fine".
    - now exists (VStr "Shoe B"), (VStr "Too tight"), (VFloat "4.5"), "so-so". }
  assert (H3 : Forall small_ints
                 [entry (VStr "Shoe A") (VStr "Great, really") (VInt 5) "fine";
                  entry (VStr "Shoe B") (VStr "Too tight") (VFloat "4.5") "so-so"]).
  { repeat constructor; simpl; lia. }
  split; [exact H1 |]. split; [exact H2 |]. split; [exact H3 |].
  apply (assemble_header_and_lines Posix _ H1 H2 H3).
Defined.

(** C7 does not hold as stated: on a frame without rows the run ends with
    no result, and the bytes offered are one empty line, not the header
    line. *)
Lemma empty_input_csv_has_no_header :
  fst (app stub_env Posix
         (Some {| columns := ["product_name"; "review"; "rating"];
                  index := RangeIndex; data := [] |})
         true 0)
  = Completed [] (encode_utf8 nl) /\
  encode_utf8 nl
  <> encode_utf8 ("product_name,review,rating,analysis" ++ nl).
Proof. split; [reflexivity | discriminate]. Qed.

(** C7, as amended: on zero rows the loop returns the empty list of
    results without touching the world, and the CSV made of it is a single
    empty line: the table built from no entry has no column, so no column
    name is written, and no data row either. *)
Theorem empty_input_gives_empty_line {W : Type} (env : Env W) (p : platform)
    (col : string) (cols : list string) (idx : Index) (w : W) :
  analyze env col {| columns := cols; index := idx; data := [] |} w = (Ok [], w) /\
  columns (DataFrame_of_records []) = [] /\
  assemble p [] = encode_utf8 (linesep p).
Proof. repeat split. now destruct p. Qed.

(** ** Reading the CSV back *)

Lemma snoc_append (f : string) (c : ascii) (s : string) :
  snoc f c ++ s = f ++ String c s.
Proof. unfold snoc. now rewrite append_assoc. Qed.

Lemma plain_step_InField (c : ascii) (f : string) (record : list string) :
  plain c = true ->
  reader_step InField f record c = (InField, snoc f c, record, None).
Proof.
  unfold plain, reader_step.
  destruct (c =? "010")%char, (c =? "013")%char, (c =? ",")%char,
    (c =? "034")%char; simpl; try discriminate; reflexivity.
Qed.

Lemma plain_step_StartField (c : ascii) (f : string) (record : list string) :
  plain c = true ->
  reader_step StartField f record c
  = match record with
    | [] => start_record c
    | _ => (InField, String c "", record, None)
    end.
Proof.
  unfold plain, reader_step.
  destruct (c =? "010")%char, (c =? "013")%char, (c =? ",")%char,
    (c =? "034")%char; simpl; try discriminate; reflexivity.
Qed.

Lemma plain_step_BlankLine (c : ascii) (f : string) (record : list string) :
  plain c = true ->
  reader_step BlankLine f record c
  = if is_blank c then (BlankLine, snoc f c, record, None)
    else (InField, snoc f c, record, None).
Proof.
  unfold plain, reader_step.
  destruct (c =? "010")%char, (c =? "013")%char, (c =? ",")%char,
    (c =? "034")%char; simpl; try discriminate; reflexivity.
Qed.

Lemma read_from_cons (c : ascii) (r : string) (st : reader_state)
    (f : string) (record : list string) :
  read_from (String c r) st f record
  = match reader_step st f record c with
    | (st', f', record', Some done) => done :: read_from r st' f' record'
    | (st', f', record', None) => read_from r st' f' record'
    end.
Proof. reflexivity. Qed.

Lemma read_plain (s rest f : string) (record : list string) :
  string_forall plain s = true ->
  read_from (s ++ rest) InField f record = read_from rest InField (f ++ s) record.
Proof.
  revert f. induction s as [|c s IH]; intros f H.
  - simpl. now rewrite append_empty_r.
  - cbn [string_forall] in H. apply andb_true_iff in H as [Hc Hs].
    cbn [append]. rewrite read_from_cons, (plain_step_InField c f record Hc).
    rewrite (IH _ Hs). now rewrite snoc_append.
Qed.

(** From the start of a line that is blank so far. *)
Lemma read_blank (s rest f : string) :
  string_forall plain s = true ->
  exists st,
    (st = InField \/ (st = BlankLine /\ string_forall is_blank s = true)) /\
    read_from (s ++ rest) BlankLine f [] = read_from rest st (f ++ s) [].
Proof.
  revert f. induction s as [|c s IH]; intros f H.
  - exists BlankLine. split; [right; now split |].
    simpl. now rewrite append_empty_r.
  - cbn [string_forall] in H. apply andb_true_iff in H as [Hc Hs].
    cbn [append]. rewrite read_from_cons, (plain_step_BlankLine c f [] Hc).
    destruct (is_blank c) eqn:Eb.
    + destruct (IH (snoc f c) Hs) as [st [Hst Hrun]].
      exists st. rewrite Hrun, snoc_append. split; [| reflexivity].
      destruct Hst as [-> | [-> Hb]]; [now left |].
      right. split; [reflexivity |]. cbn [string_forall]. now rewrite Eb.
    + exists InField. split; [now left |].
      now rewrite (read_plain s rest (snoc f c) [] Hs), snoc_append.
Qed.

Lemma read_plain_start (s rest : string) (record : list string) :
  string_forall plain s = true -> s <> "" ->
  exists st, field_read record s st /\
    read_from (s ++ rest) StartField "" record = read_from rest st s record.
Proof.
  destruct s as [|c s]; [now intros _ H; elim H |]. intros H _.
  cbn [string_forall] in H. apply andb_true_iff in H as [Hc Hs].
  cbn [append]. rewrite read_from_cons, (plain_step_StartField c "" record Hc).
  destruct record as [|x record].
  - unfold start_record. destruct (is_blank c) eqn:Eb.
    + destruct (read_blank s rest (String c "") Hs) as [st [Hst Hrun]].
      exists st. split; [| exact Hrun].
      destruct Hst as [-> | [-> Hb]].
      * right. left. split; [reflexivity | discriminate].
      * right. right. right. repeat split; try discriminate.
        cbn [string_forall]. now rewrite Eb.
    + exists InField. split; [right; left; split; [reflexivity | discriminate] |].
      now rewrite (read_plain s rest (String c "") [] Hs).
  - exists InField. split; [right; left; split; [reflexivity | discriminate] |].
    now rewrite (read_plain s rest (String c "") (x :: record) Hs).
Qed.

Lemma read_quoted (s rest f : string) (record : list string) :
  read_from (double_quotes s ++ String "034" rest) InQuoted f record
  = read_from rest AfterQuote (f ++ s) record.
Proof.
  revert f. induction s as [|c s IH]; intros f.
  - simpl. now rewrite append_empty_r.
  - simpl. destruct (c =? "034")%char eqn:E.
    + simpl. rewrite E. simpl. rewrite E. rewrite IH. now rewrite snoc_append.
    + simpl. rewrite E. rewrite IH. now rewrite snoc_append.
Qed.

Lemma unquoted_is_plain (p : platform) (s : string) :
  string_exists (special (linesep p)) s = false ->
  (p = Posix -> has_cr s = false) ->
  string_forall plain s = true.
Proof.
  unfold has_cr. induction s as [|c s IH]; simpl; intros H Hcr; [reflexivity |].
  apply orb_false_iff in H as [Hc Hs].
  assert (Hcr' : p = Posix -> string_exists (fun c => (c =? "013")%char) s = false).
  { intros Hp. specialize (Hcr Hp). now apply orb_false_iff in Hcr. }
  rewrite (IH Hs Hcr'), andb_true_r.
  unfold special, plain in *. destruct p; simpl in Hc.
  - specialize (Hcr eq_refl). apply orb_false_iff in Hcr as [Hcr _].
    destruct (c =? ",")%char, (c =? "034")%char, (c =? "010")%char,
      (c =? "013")%char; simpl in *; try discriminate; reflexivity.
  - destruct (c =? ",")%char, (c =? "034")%char, (c =? "010")%char,
      (c =? "013")%char; simpl in *; try discriminate; reflexivity.
Qed.

(** A field written by the csv writer is read back as it was. *)
Lemma read_field (p : platform) (s rest : string) (record : list string) :
  (p = Posix -> has_cr s = false) ->
  exists st, field_read record s st /\
    read_from (csv_field (linesep p) s ++ rest) StartField "" record
    = read_from rest st s record.
Proof.
  intros Hcr. unfold csv_field.
  destruct (string_exists (special (linesep p)) s) eqn:E.
  - exists AfterQuote. split; [now left |].
    rewrite !append_assoc. simpl. now rewrite read_quoted.
  - pose proof (unquoted_is_plain p s E Hcr) as Hplain.
    destruct s as [|c s].
    + exists StartField. split; [right; right; left; now split | reflexivity].
    + apply read_plain_start; [exact Hplain | discriminate].
Qed.

Lemma read_comma (s rest : string) (st : reader_state) (record : list string) :
  field_read record s st ->
  read_from ("," ++ rest) st s record
  = read_from rest StartField "" (record ++ [s])%list.
Proof.
  intros [-> | [[-> _] | [[-> ->] | [-> [-> _]]]]]; reflexivity.
Qed.

Lemma read_linesep (p : platform) (s rest : string) (st : reader_state)
    (record : list string) :
  field_read record s st -> (st = StartField -> record <> []) ->
  st <> BlankLine ->
  read_from (linesep p ++ rest) st s record
  = (record ++ [s])%list :: read_from rest StartField "" [].
Proof.
  intros [-> | [[-> _] | [[-> ->] | [-> _]]]] Hrec Hnb; destruct p;
    try reflexivity; try (now elim Hnb);
    destruct record; try reflexivity; now elim (Hrec eq_refl).
Qed.

Lemma read_joined (p : platform) (fields : list string) :
  (p = Posix -> Forall (fun s => has_cr s = false) fields) ->
  fields <> [] ->
  forall (record : list string) (rest : string),
    (record = [] -> ~ lone_blank fields) ->
    read_from (join "," (map (csv_field (linesep p)) fields) ++ linesep p ++ rest)
              StartField "" record
    = (record ++ fields)%list :: read_from rest StartField "" [].
Proof.
  intros Hcr Hne. induction fields as [|s fields IH]; [now elim Hne |].
  assert (Hs : p = Posix -> has_cr s = false).
  { intros Hp. specialize (Hcr Hp). now inversion Hcr. }
  assert (Hrest : p = Posix -> Forall (fun s => has_cr s = false) fields).
  { intros Hp. specialize (Hcr Hp). now inversion Hcr. }
  intros record rest Hone. destruct fields as [|s2 fields].
  - simpl join.
    destruct (read_field p s (linesep p ++ rest) record Hs) as [st [Hst ->]].
    apply read_linesep; [exact Hst | |].
    + intros ->. destruct Hst as [K | [[K _] | [[_ ->] | [K _]]]];
        try discriminate.
      intros ->. apply Hone; [reflexivity |]. now exists "".
    + intros ->. destruct Hst as [K | [[K _] | [[K _] | [_ [-> [_ Hb]]]]]];
        try discriminate.
      apply Hone; [reflexivity |]. now exists s.
  - change (join "," (map (csv_field (linesep p)) (s :: s2 :: fields)))
      with (csv_field (linesep p) s ++ ","
            ++ join "," (map (csv_field (linesep p)) (s2 :: fields))).
    rewrite !append_assoc.
    destruct (read_field p s
                ("," ++ join "," (map (csv_field (linesep p)) (s2 :: fields))
                     ++ linesep p ++ rest) record Hs) as [st [Hst ->]].
    rewrite (read_comma _ _ _ _ Hst).
    rewrite (IH Hrest ltac:(discriminate) (record ++ [s])%list rest).
    + now rewrite <- app_assoc.
    + intros K. now destruct record.
Qed.

Lemma read_writerow (p : platform) (fields : list string) (rest : string) :
  (p = Posix -> Forall (fun s => has_cr s = false) fields) ->
  fields <> [] -> ~ skipped fields ->
  read_from (writerow (linesep p) fields ++ rest) StartField "" []
  = fields :: read_from rest StartField "" [].
Proof.
  intros Hcr Hne Hsk.
  assert (E : fields = [""] \/
              (fields <> [""] /\
               writerow (linesep p) fields
               = join "," (map (csv_field (linesep p)) fields) ++ linesep p)).
  { destruct fields as [|s [|s2 r]]; [now elim Hne | |].
    - destruct s; [now left | right; split; [discriminate | reflexivity]].
    - right. split; [discriminate | apply writerow_many]. }
  destruct E as [-> | [Hone ->]].
  - destruct p; reflexivity.
  - rewrite append_assoc. apply (read_joined p fields Hcr Hne [] rest).
    intros _ [s [-> Hb]]. apply Hsk. exists s. repeat split; trivial.
    intros ->. now apply Hone.
Qed.

Lemma read_lines (p : platform) (rows : list (list string)) :
  Forall (fun row => row <> [] /\ ~ skipped row /\
                     (p = Posix -> Forall (fun s => has_cr s = false) row)) rows ->
  read_from (concat_all (map (writerow (linesep p)) rows)) StartField "" []
  = rows.
Proof.
  induction 1 as [|row rows [Hne [Hsk Hcr]] _ IH]; simpl; [reflexivity |].
  now rewrite (read_writerow p row _ Hcr Hne Hsk), IH.
Qed.

(** A record of two fields or more is never skipped. *)
Lemma two_fields_not_skipped (a b : string) (r : list string) :
  ~ skipped (a :: b :: r).
Proof. intros [s [H _]]. discriminate H. Qed.

Lemma has_cr_app (a b : string) : has_cr (a ++ b) = has_cr a || has_cr b.
Proof.
  unfold has_cr. induction a as [|c a IH]; simpl; [reflexivity |].
  now rewrite IH, orb_assoc.
Qed.

Lemma written_no_cr (cells : list value) (v : value) :
  has_cr (cell_text v) = false -> has_cr (written cells v) = false.
Proof.
  destruct v as [t|n|r|]; simpl; trivial.
  destruct (negb (existsb is_text cells) && existsb is_floating cells); trivial.
  intros H. now rewrite has_cr_app, H.
Qed.

Lemma entry_texts_no_cr (results : list dict) (d : dict) :
  is_entry d -> Forall (fun s => has_cr s = false) (texts d) ->
  Forall (fun s => has_cr s = false) (entry_texts results d).
Proof.
  intros [pn [rv [rt [a ->]]]] H. rewrite entry_texts_entry.
  inversion H as [|? ? H1 T1]; subst. inversion T1 as [|? ? H2 T2]; subst.
  inversion T2 as [|? ? H3 T3]; subst. inversion T3 as [|? ? H4 _]; subst.
  simpl in *. repeat constructor; trivial; now apply written_no_cr.
Qed.

Lemma read_records_to_csv (p : platform) (results : list dict) :
  results <> [] -> Forall is_entry results -> Forall (readable p) results ->
  read_records (to_csv p (DataFrame_of_records results))
  = entry_keys :: table_texts results.
Proof.
  intros Hne Hall Hread. rewrite (to_csv_rows p results Hne Hall).
  unfold read_records.
  rewrite read_writerow;
    [| intros _; repeat constructor | discriminate | apply two_fields_not_skipped].
  f_equal. apply read_lines.
  rewrite (table_texts_entries results Hne Hall).
  apply Forall_map. rewrite Forall_forall in *. intros d Hd.
  split; [discriminate |]. split; [apply two_fields_not_skipped |].
  intros ->. apply entry_texts_no_cr; [now apply Hall |].
  exact (Hread d Hd).
Qed.

(** C8 does not hold as stated: a reply made of whitespace gives the empty
    analysis; it is written as an empty field, which is read back as a
    missing value and not as the empty text. *)
Lemma empty_analysis_comes_back_missing :
  analysis_of (Text "  ") = "" /\
  read_back (assemble Posix
               [entry (VStr "Shoe A") (VStr "Great fit") (VInt 5) ""])
  = [["product_name"; "review"; "rating"; "analysis"];
     ["Shoe A"; "Great fit"; "5"; ""]] /\
  read_cell "" = Some VNaN /\
  VNaN <> VStr "".
Proof. repeat split; discriminate. Qed.

(** More generally a text "5" and a number 5 are written alike, so no way
    of reading the bytes gives back every sequence of entries as it was. *)
Lemma csv_does_not_determine_values :
  ~ exists parse : list Byte.byte -> list dict,
      forall results : list dict,
        Forall is_entry results -> parse (assemble Posix results) = results.
Proof.
  intros [parse H].
  assert (E1 : Forall is_entry
                 [entry (VStr "Shoe A") (VStr "Great fit") (VInt 5) "fine"]).
  { repeat constructor. now exists (VStr "Shoe A"), (VStr "Great fit"),
      (VInt 5), "fine". }
  assert (E2 : Forall is_entry
                 [entry (VStr "Shoe A") (VStr "Great fit") (VStr "5") "fine"]).
  { repeat constructor. now exists (VStr "Shoe A"), (VStr "Great fit"),
      (VStr "5"), "fine". }
  pose proof (H _ E1) as P1. pose proof (H _ E2) as P2.
  change (assemble Posix
            [entry (VStr "Shoe A") (VStr "Great fit") (VStr "5") "fine"])
    with (assemble Posix
            [entry (VStr "Shoe A") (VStr "Great fit") (VInt 5) "fine"]) in P2.
  rewrite P1 in P2. discriminate P2.
Qed.

(** C8, as amended: for every sequence of entries that is not empty,
    reading the downloaded bytes back as CSV (decoding them and splitting
    them into records and fields) gives the header and then, entry by
    entry and in order, the texts of the four fields product_name, review,
    rating and analysis as the table holds them: a number comes back as
    its text (an integer as a float, 5.0 for 5, when its column holds no
    text and holds a float or a missing value) and a missing value as the
    empty text; the values themselves are not recovered. Where lines end
    with a bare LF this asks that no field holds a carriage return. The
    integers are taken to be at most 2^53 in absolute value. *)
Theorem read_back_assemble (p : platform) (results : list dict) :
  results <> [] -> Forall is_entry results -> Forall (readable p) results ->
  Forall small_ints results ->
  read_back (assemble p results)
  = ["product_name"; "review"; "rating"; "analysis"] :: table_texts results /\
  List.length (table_texts results) = List.length results /\
  forall n pn rv rt a,
    nth_error results n
    = Some [("product_name", pn); ("review", rv); ("rating", rt);
            ("analysis", VStr a)] ->
    nth_error (table_texts results) n
    = Some [written (column results "product_name") pn;
            written (column results "review") rv;
            written (column results "rating") rt; a].
Proof.
  intros Hne Hall Hread _. repeat split.
  - unfold read_back, assemble, encode_utf8.
    rewrite string_of_list_byte_of_string.
    exact (read_records_to_csv p results Hne Hall Hread).
  - rewrite (table_texts_entries results Hne Hall). apply length_map.
  - intros n pn rv rt a Hn.
    rewrite (table_texts_entries results Hne Hall).
    rewrite nth_error_map, Hn. reflexivity.
Qed.

Lemma read_back_assemble_witness :
  [entry (VStr "Shoe A") (VStr "Great, really") (VInt 5) stub_text;
   entry (VStr "Shoe B") (VStr "Too tight") VNaN ""] <> [] /\
  Forall is_entry
    [entry (VStr "Shoe A") (VStr "Great, really") (VInt 5) stub_text;
     entry (VStr "Shoe B") (VStr "Too tight") VNaN ""] /\
  Forall (readable Posix)
    [entry (VStr "Shoe A") (VStr "Great, really") (VInt 5) stub_text;
     entry (VStr "Shoe B") (VStr "Too tight") VNaN ""] /\
  Forall small_ints
    [entry (VStr "Shoe A") (VStr "Great, really") (VInt 5) stub_text;
     entry (VStr "Shoe B") (VStr "Too tight") VNaN ""] /\
  read_back (assemble Posix
    [entry (VStr "Shoe A") (VStr "Great, really") (VInt 5) stub_text;
     entry (VStr "Shoe B") (VStr "Too tight") VNaN ""])
  = [["product_name"; "review"; "rating"; "analysis"];
     ["Shoe A"; "Great, really"; "5.0"; stub_text];
     ["Shoe B"; "Too tight"; ""; ""]].
Proof.
  assert (H1 : [entry (VStr "Shoe A") (VStr "Great, really") (VInt 5) stub_text;
                entry (VStr "Shoe B") (VStr "Too tight") VNaN ""] <> [])
    by discriminate.
  assert (H2 : Forall is_entry
            [entry (VStr "Shoe A") (VStr "Great, really") (VInt 5) stub_text;
             entry (VStr "Shoe B") (VStr "Too tight") VNaN ""]).
  { repeat constructor.
    - now exists (VStr "Shoe A"), (VStr "Great, really"), (VInt 5), stub_text.
    - now exists (VStr "Shoe B"), (VStr "Too tight"), VNaN, "". }
  assert (H3 : Forall (readable Posix)
            [entry (VStr "Shoe A") (VStr "Great, really") (VInt 5) stub_text;
             entry (VStr "Shoe B") (VStr "Too tight") VNaN ""]).
  { repeat constructor. }
  assert (H4 : Forall small_ints
            [entry (VStr "Shoe A") (VStr "Great, really") (VInt 5) stub_text;
             entry (VStr "Shoe B") (VStr "Too tight") VNaN ""]).
  { repeat constructor; simpl; lia. }
  split; [exact H1 |]. split; [exact H2 |]. split; [exact H3 |].
  split; [exact H4 |].
  apply (read_back_assemble Posix _ H1 H2 H3 H4).
Defined.

(** Why the carriage return is set apart: with LF line ends it is written
    bare, and the record is cut in two when read. *)
Example bare_carriage_return_cuts_record :
  read_back (assemble Posix
    [entry (VStr "Shoe A") (VStr ("Great" ++ cr ++ "fit")) (VInt 5) "fine"])
  = [["product_name"; "review"; "rating"; "analysis"];
     ["Shoe A"; "Great"]; ["fit"; "5"; "fine"]].
Proof. reflexivity. Qed.

(** ** The API key *)

(** X1: whatever the host holds, when the script gets past the loading of
    the key, the key handed to the service library is not empty, as long
    as the constant of line 35 is not. *)
Theorem load_api_key_never_empty (fallback : string) (h : Host)
    (k : string) (shown : list banner) :
  fallback <> "" ->
  load_api_key fallback h = Ok (k, shown) ->
  k <> "".
Proof.
  intros Hf. unfold load_api_key.
  destruct (key_from_secrets h) as [[k1 s1]|e]; [| discriminate].
  unfold key_from_environ.
  destruct (falsy k1) eqn:E1.
  - destruct (get (environ_seen h) "GEMINI_API_KEY") as [[|c r]|]; simpl;
      intros [= <- _]; trivial; discriminate.
  - destruct k1 as [[|c r]|]; try discriminate. simpl.
    intros [= <- _]. discriminate.
Qed.

Lemma load_api_key_never_empty_witness :
  "local-key" <> "" /\
  load_api_key "local-key"
    {| app_secrets_exists := true; global_secrets_exists := false;
       secrets := [("GEMINI_API_KEY", "")];
       environ := [("HOME", "/root")] |}
  = Ok ("local-key", [LoadedFromSecrets]) /\
  "local-key" <> "".
Proof.
  assert (H1 : "local-key" <> "") by discriminate.
  assert (H2 : load_api_key "local-key"
    {| app_secrets_exists := true; global_secrets_exists := false;
       secrets := [("GEMINI_API_KEY", "")];
       environ := [("HOME", "/root")] |}
    = Ok ("local-key", [LoadedFromSecrets])) by reflexivity.
  split; [exact H1 |]. split; [exact H2 |].
  exact (load_api_key_never_empty _ _ _ _ H1 H2).
Defined.

(** X2: when one of the two secrets files exists and the secret
    GEMINI_API_KEY is a non-empty text, that text is the key, whatever the
    environment and the constant are, and one banner is shown: the one of
    the app file when it exists, the one of the global file otherwise. *)
Theorem secrets_take_priority (fallback : string) (h : Host) (c : ascii)
    (r : string) :
  app_secrets_exists h || global_secrets_exists h = true ->
  get (secrets h) "GEMINI_API_KEY" = Some (String c r) ->
  load_api_key fallback h
  = Ok (String c r,
        [if app_secrets_exists h then LoadedFromSecrets
         else LoadedFromGlobalSecrets]).
Proof.
  intros Hfile Hs. unfold load_api_key, key_from_secrets, secret.
  rewrite Hs.
  destruct (app_secrets_exists h); [reflexivity |].
  simpl in Hfile. now rewrite Hfile.
Qed.

Lemma secrets_take_priority_witness :
  false || true = true /\
  get [("GEMINI_API_KEY", "from-secrets")] "GEMINI_API_KEY"
  = Some "from-secrets" /\
  load_api_key "local-key"
    {| app_secrets_exists := false; global_secrets_exists := true;
       secrets := [("GEMINI_API_KEY", "from-secrets")];
       environ := [("GEMINI_API_KEY", "from-environment")] |}
  = Ok ("from-secrets", [LoadedFromGlobalSecrets]).
Proof.
  split; [reflexivity |]. split; [reflexivity |].
  apply (secrets_take_priority "local-key"
    {| app_secrets_exists := false; global_secrets_exists := true;
       secrets := [("GEMINI_API_KEY", "from-secrets")];
       environ := [("GEMINI_API_KEY", "from-environment")] |}
    "f" "rom-secrets"); reflexivity.
Defined.

(** X3: when a secrets file exists and holds no secret GEMINI_API_KEY, the
    lookup raises KeyError and the script stops there: neither the
    environment nor the constant is tried. *)
Theorem missing_secret_stops_the_script (fallback : string) (h : Host) :
  app_secrets_exists h || global_secrets_exists h = true ->
  get (secrets h) "GEMINI_API_KEY" = None ->
  load_api_key fallback h = Raise (KeyError "GEMINI_API_KEY").
Proof.
  intros Hfile Hs. unfold load_api_key, key_from_secrets, secret.
  rewrite Hs.
  destruct (app_secrets_exists h); [reflexivity |].
  simpl in Hfile. now rewrite Hfile.
Qed.

Lemma missing_secret_stops_the_script_witness :
  true || false = true /\
  get [("OTHER", "x")] "GEMINI_API_KEY" = None /\
  load_api_key "local-key"
    {| app_secrets_exists := true; global_secrets_exists := false;
       secrets := [("OTHER", "x")];
       environ := [("GEMINI_API_KEY", "from-environment")] |}
  = Raise (KeyError "GEMINI_API_KEY").
Proof.
  split; [reflexivity |]. split; [reflexivity |].
  apply (missing_secret_stops_the_script "local-key"
    {| app_secrets_exists := true; global_secrets_exists := false;
       secrets := [("OTHER", "x")];
       environ := [("GEMINI_API_KEY", "from-environment")] |}); reflexivity.
Defined.

Lemma get_app_found (d e : list (string * string)) (key v : string) :
  get d key = Some v -> get (d ++ e) key = Some v.
Proof.
  induction d as [|[k x] d IH]; simpl; [discriminate |].
  destruct (k =? key)%string; [trivial | exact IH].
Qed.

(** X4: when the secrets give no usable key, what follows depends on
    whether a secrets file exists. With no secrets file, the key is the
    environment variable GEMINI_API_KEY when it is set and not empty, with
    its banner, and the constant otherwise, with no banner. With a secrets
    file whose secret is the empty text, the key is the constant whatever
    the environment held, and the only banner is the one of the file: the
    empty secret has been copied over the variable. *)
Theorem environment_then_constant (fallback : string) (h : Host) :
  (app_secrets_exists h || global_secrets_exists h = false \/
   get (secrets h) "GEMINI_API_KEY" = Some "") ->
  load_api_key fallback h
  = Ok (if app_secrets_exists h then (fallback, [LoadedFromSecrets])
        else if global_secrets_exists h then (fallback, [LoadedFromGlobalSecrets])
        else match get (environ h) "GEMINI_API_KEY" with
             | Some (String c r) => (String c r, [LoadedFromEnvironment])
             | _ => (fallback, [])
             end).
Proof.
  intros H. unfold load_api_key, key_from_secrets, secret, key_from_environ,
    environ_seen.
  destruct (app_secrets_exists h) eqn:Ea.
  - destruct H as [H | H]; [discriminate |]. rewrite H. simpl.
    now rewrite (get_app_found _ (environ h) _ _ H).
  - destruct (global_secrets_exists h) eqn:Eg.
    + destruct H as [H | H]; [discriminate |]. rewrite H. simpl.
      now rewrite (get_app_found _ (environ h) _ _ H).
    + simpl. now destruct (get (environ h) "GEMINI_API_KEY") as [[|c r]|].
Qed.

Lemma environment_then_constant_witness :
  (true || false = false \/
   get [("GEMINI_API_KEY", "")] "GEMINI_API_KEY" = Some "") /\
  load_api_key "local-key"
    {| app_secrets_exists := true; global_secrets_exists := false;
       secrets := [("GEMINI_API_KEY", "")];
       environ := [("GEMINI_API_KEY", "from-environment")] |}
  = Ok ("local-key", [LoadedFromSecrets]).
Proof.
  assert (H : true || false = false \/
              get [("GEMINI_API_KEY", "")] "GEMINI_API_KEY" = Some "")
    by (right; reflexivity).
  split; [exact H |].
  exact (environment_then_constant "local-key"
    {| app_secrets_exists := true; global_secrets_exists := false;
       secrets := [("GEMINI_API_KEY", "")];
       environ := [("GEMINI_API_KEY", "from-environment")] |} H).
Defined.

(** ** What the loop does to the world *)

(** The history of a run over rows that pass: for each row in turn, the
    call, the progress report, the pause. *)
Lemma trace_rows (answer : list event -> string -> reply) (col : string)
    (total : nat) (rows : list (label * Series)) :
  Forall (passes col total) rows ->
  forall (acc : list dict) (log : list event),
    snd (analyze_rows (trace_env answer) col total rows acc log)
    = (log ++ flat_map (row_events col total) rows)%list.
Proof.
  induction 1 as [|[i row] rest [Hrow Hl] _ IH]; intros acc log; simpl.
  - now rewrite app_nil_r.
  - simpl in Hrow, Hl. destruct (label_ok_int total i Hl) as [z ->].
    unfold bind at 1.
    rewrite (analyze_row_complete (trace_env answer) col total z row acc log Hrow Hl).
    rewrite IH. unfold row_events. simpl.
    now rewrite <- !app_assoc.
Qed.

Lemma calls_row_events (col : string) (total : nat) (rows : list (label * Series)) :
  calls (flat_map (row_events col total) rows)
  = map (fun ir => prompt_text col (snd ir)) rows.
Proof.
  induction rows as [|[[z|t] row] rows IH]; simpl; [reflexivity | |];
    now rewrite <- IH.
Qed.

Lemma pauses_app (a b : list event) : pauses (a ++ b) = pauses a + pauses b.
Proof. unfold pauses. now rewrite filter_app, length_app. Qed.

Lemma pauses_row_events (col : string) (total : nat) (rows : list (label * Series)) :
  Forall (passes col total) rows ->
  pauses (flat_map (row_events col total) rows) = List.length rows.
Proof.
  induction 1 as [|[i row] rows [_ Hl] _ IH]; [reflexivity |].
  simpl in Hl. destruct (label_ok_int total i Hl) as [z ->].
  cbn [flat_map]. rewrite pauses_app, IH. reflexivity.
Qed.

Lemma reports_row_events (col : string) (total : nat) (rows : list (label * Series)) :
  Forall (passes col total) rows ->
  reports (flat_map (row_events col total) rows)
  = map (fun ir => (match fst ir with LInt z => (z + 1)%Z | LStr _ => 0%Z end, total))
        rows.
Proof.
  induction 1 as [|[i row] rows [_ Hl] _ IH]; [reflexivity |].
  simpl in Hl. destruct (label_ok_int total i Hl) as [z ->].
  cbn [flat_map map]. unfold reports in *. rewrite flat_map_app, IH. reflexivity.
Qed.

(** X5: over rows that have the three fields and whose labels are integers
    i with 0 <= i + 1 <= N, N being the total given to the progress bar,
    the service is called exactly once per row, in the order of the rows
    and with the prompt of the row: there is no retry and no batching,
    whatever the replies are; after the call of a row come its progress
    report, of i + 1 out of N, and one pause. *)
Theorem one_call_and_one_pause_per_row (answer : list event -> string -> reply)
    (col : string) (total : nat) (rows : list (Z * Series)) :
  Forall (fun zr => complete col (snd zr) = true /\
                    (0 <= fst zr + 1 <= Z.of_nat total)%Z) rows ->
  snd (analyze_rows (trace_env answer) col total
         (map (fun zr => (LInt (fst zr), snd zr)) rows) [] [])
  = flat_map (fun zr => [Called (prompt_text col (snd zr));
                         Reported (fst zr + 1) total; Slept]) rows /\
  calls (snd (analyze_rows (trace_env answer) col total
                (map (fun zr => (LInt (fst zr), snd zr)) rows) [] []))
  = map (fun zr => prompt_text col (snd zr)) rows /\
  pauses (snd (analyze_rows (trace_env answer) col total
                 (map (fun zr => (LInt (fst zr), snd zr)) rows) [] []))
  = List.length rows.
Proof.
  intros H.
  assert (Hp : Forall (passes col total)
                 (map (fun zr => (LInt (fst zr), snd zr)) rows)).
  { apply Forall_map. revert H. apply Forall_impl. intros zr [Hc Hz].
    split; [exact Hc |]. simpl. apply andb_true_iff.
    split; apply Z.leb_le; lia. }
  rewrite (trace_rows answer col total _ Hp [] []).
  change ([] ++ flat_map (row_events col total)
                  (map (fun zr => (LInt (fst zr), snd zr)) rows))%list
    with (flat_map (row_events col total)
            (map (fun zr => (LInt (fst zr), snd zr)) rows)).
  split; [| split].
  - clear. induction rows as [|zr rows IH]; [reflexivity |].
    cbn [map flat_map]. now rewrite IH.
  - rewrite calls_row_events, map_map. reflexivity.
  - rewrite (pauses_row_events col total _ Hp). apply length_map.
Qed.

Lemma one_call_and_one_pause_per_row_witness :
  Forall (fun zr => complete "review_text" (snd zr) = true /\
                    (0 <= fst zr + 1 <= Z.of_nat 2)%Z)
    [(0%Z, [("product_name", VStr "Shoe A"); ("review_text", VStr "Great fit");
            ("rating", VInt 5)])] /\
  pauses (snd (analyze_rows (trace_env (fun _ _ => Raises "quota exceeded"))
                 "review_text" 2
                 (map (fun zr => (LInt (fst zr), snd zr))
                    [(0%Z, [("product_name", VStr "Shoe A");
                            ("review_text", VStr "Great fit");
                            ("rating", VInt 5)])]) [] []))
  = 1.
Proof.
  assert (H : Forall (fun zr => complete "review_text" (snd zr) = true /\
                    (0 <= fst zr + 1 <= Z.of_nat 2)%Z)
    [(0%Z, [("product_name", VStr "Shoe A"); ("review_text", VStr "Great fit");
            ("rating", VInt 5)])]).
  { repeat constructor; simpl; lia. }
  split; [exact H |].
  apply (one_call_and_one_pause_per_row (fun _ _ => Raises "quota exceeded")
           "review_text" 2 _ H).
Defined.

Lemma range_labels (l : list Series) (i : nat) :
  map (fun ir : label * Series =>
         (match fst ir with LInt z => (z + 1)%Z | LStr _ => 0%Z end))
      (map (fun kr => (label_at RangeIndex (fst kr), snd kr)) (enumerate_from i l))
  = map Z.of_nat (seq (i + 1) (List.length l)).
Proof.
  revert i. induction l as [|row l IH]; intros i; [reflexivity |].
  rewrite Nat.add_1_r.
  cbn [enumerate_from map List.length seq].
  f_equal; [simpl; lia |]. rewrite (IH (S i)). now rewrite Nat.add_1_r.
Qed.

(** X6: on a well-formed frame under the default index that has the
    resolved column, product_name and rating, the progress reported after
    the k-th of N rows (counting from 1) is k out of N: the fractions
    shown are 1/N, 2/N, ..., N/N, each above 0 and at most 1. *)
Theorem progress_runs_from_first_to_last (answer : list event -> string -> reply)
    (col : string) (df : DataFrame) :
  well_formed df -> index df = RangeIndex ->
  In col (columns df) -> In "product_name" (columns df) ->
  In "rating" (columns df) ->
  reports (snd (analyze (trace_env answer) col df []))
  = map (fun k => (Z.of_nat k, len df)) (seq 1 (len df)) /\
  forall k n, In (k, n) (reports (snd (analyze (trace_env answer) col df []))) ->
    (0 < k <= Z.of_nat n)%Z /\ n = len df.
Proof.
  intros Hwf Hidx Hc Hp Hr.
  pose proof (iterrows_passes df col (iterrows_complete df col Hwf Hc Hp Hr)
                (range_index_ok df Hidx)) as Hrows.
  assert (E : reports (snd (analyze (trace_env answer) col df []))
              = map (fun k => (Z.of_nat k, len df)) (seq 1 (len df))).
  { unfold analyze. rewrite (trace_rows answer col (len df) _ Hrows [] []).
    rewrite app_nil_l. rewrite (reports_row_events col (len df) _ Hrows).
    rewrite <- (map_map (fun ir : label * Series =>
                  match fst ir with LInt z => (z + 1)%Z | LStr _ => 0%Z end)
                (fun z => (z, len df))).
    unfold iterrows. rewrite Hidx, (range_labels _ 0), map_map, length_map.
    reflexivity. }
  split; [exact E |]. intros k n Hin. rewrite E in Hin.
  apply in_map_iff in Hin as [k' [[= <- <-] Hk]].
  apply in_seq in Hk. lia.
Qed.

Lemma progress_runs_from_first_to_last_witness :
  well_formed shoes /\ index shoes = RangeIndex /\
  In "review_text" (columns shoes) /\ In "product_name" (columns shoes) /\
  In "rating" (columns shoes) /\
  reports (snd (analyze (trace_env (fun _ _ => Text "fine")) "review_text" shoes []))
  = [(1%Z, 2); (2%Z, 2)].
Proof.
  assert (H1 : well_formed shoes) by (repeat constructor).
  assert (H0 : index shoes = RangeIndex) by reflexivity.
  assert (H2 : In "review_text" (columns shoes)) by (simpl; auto).
  assert (H3 : In "product_name" (columns shoes)) by (simpl; auto).
  assert (H4 : In "rating" (columns shoes)) by (simpl; auto).
  split; [exact H1 |]. split; [exact H0 |]. split; [exact H2 |].
  split; [exact H3 |]. split; [exact H4 |].
  apply (progress_runs_from_first_to_last (fun _ _ => Text "fine")
           "review_text" shoes H1 H0 H2 H3 H4).
Defined.

(** X7: the service is never called unless a file is uploaded, one of its
    columns is a review column, the button is clicked and the frame has at
    least one row. *)
Theorem no_call_unless_asked (answer : list event -> string -> reply)
    (p : platform) (uploaded_file : option DataFrame) (clicked : bool) :
  calls (snd (app (trace_env answer) p uploaded_file clicked [])) <> [] ->
  clicked = true /\
  exists df col,
    uploaded_file = Some df /\
    detect_review_col (columns df) = Some col /\
    data df <> [].
Proof.
  unfold app. destruct uploaded_file as [df|]; [| now intros H; elim H].
  destruct (detect_review_col (columns df)) as [col|] eqn:E;
    [| now intros H; elim H].
  destruct clicked; [| now intros H; elim H].
  intros H. split; [reflexivity |]. exists df, col. repeat split; trivial.
  intros Hd. apply H. unfold analyze, iterrows, len. rewrite Hd. reflexivity.
Qed.

Lemma no_call_unless_asked_witness :
  calls (snd (app (trace_env (fun _ _ => Text "fine")) Posix (Some shoes) true []))
  <> [] /\
  true = true.
Proof.
  assert (H : calls (snd (app (trace_env (fun _ _ => Text "fine")) Posix
                            (Some shoes) true [])) <> []) by discriminate.
  split; [exact H |].
  exact (proj1 (no_call_unless_asked _ Posix (Some shoes) true H)).
Defined.

(** ** Runs that stop on a missing column *)

Lemma has_label_combine_absent (cols : list string) (vals : list value)
    (k : string) :
  ~ In k cols -> has_label (combine cols vals) k = false.
Proof.
  unfold has_label. revert vals.
  induction cols as [|c cols IH]; intros [|v vals] Hno; simpl; try reflexivity.
  destruct (String.eqb_spec c k) as [-> | Hne].
  - exfalso. apply Hno. now left.
  - apply IH. intros K. apply Hno. now right.
Qed.

(** Without rating the prompt cannot be built: the row raises before the
    service is called. *)
Lemma analyze_row_without_rating {W : Type} (env : Env W) (col : string)
    (total : nat) (i : label) (row : Series) (results : list dict) (w : W) :
  has_label row col = true -> has_label row "rating" = false ->
  analyze_row env col total i row results w = (Raise (KeyError "rating"), w).
Proof.
  intros Hc Hr. apply has_label_true in Hc. apply has_label_false in Hr.
  unfold analyze_row, bind, lift, build_prompt, prompt_template, fstring.
  now rewrite Hc, Hr.
Qed.

(** Without product_name the row raises when its entry is built, after the
    service was called for it, and before the progress report and the
    pause. *)
Lemma analyze_row_without_product_name {W : Type} (env : Env W) (col : string)
    (total : nat) (i : label) (row : Series) (results : list dict) (w : W) :
  has_label row col = true -> has_label row "rating" = true ->
  has_label row "product_name" = false ->
  analyze_row env col total i row results w
  = (Raise (KeyError "product_name"),
     snd (generate_content env (prompt_text col row) w)).
Proof.
  intros Hc Hr Hp.
  apply has_label_true in Hc. apply has_label_true in Hr.
  apply has_label_false in Hp.
  unfold analyze_row, bind, lift, act.
  rewrite (build_prompt_ok _ _ _ _ Hc Hr). fold (prompt_text col row).
  destruct (generate_content env (prompt_text col row) w) as [r w1]. simpl.
  now rewrite Hp.
Qed.

Lemma detected_column_present (cols : list string) (col : string) :
  detect_review_col cols = Some col -> In col cols.
Proof.
  intros E. apply first_present_Some in E as [b [a [_ [H _]]]]. exact H.
Qed.

Lemma first_row_labels (df : DataFrame) (r : list value) (rest : list (list value))
    (k : string) :
  well_formed df -> data df = r :: rest ->
  has_label (combine (columns df) r) k = contains (columns df) k.
Proof.
  intros Hwf Hd. unfold well_formed in Hwf. rewrite Hd in Hwf.
  inversion Hwf as [|? ? Hlen _]; subst.
  destruct (contains (columns df) k) eqn:E.
  - apply contains_In in E. now apply has_label_combine.
  - apply contains_not_In in E. now apply has_label_combine_absent.
Qed.

(** A first row that raises ends the click in the exception. *)
Lemma app_first_row_raises {W : Type} (env : Env W) (p : platform)
    (df : DataFrame) (col : string) (w w' : W) (e : exn)
    (r : list value) (rest : list (list value)) :
  data df = r :: rest ->
  detect_review_col (columns df) = Some col ->
  analyze_row env col (len df) (label_at (index df) 0) (combine (columns df) r)
    [] w = (Raise e, w') ->
  app env p (Some df) true w = (Crashed e, w').
Proof.
  intros Hd Hdet Hrow.
  unfold app. rewrite Hdet. unfold analyze, iterrows. rewrite Hd. simpl.
  unfold bind at 1. now rewrite Hrow.
Qed.

(** X8: on a well-formed frame with at least one row that has a review
    column and no rating column, a click ends in a KeyError for rating on
    the first row, before any call to the service: the world is left as it
    was. *)
Theorem no_rating_column_stops_before_any_call {W : Type} (env : Env W)
    (p : platform) (df : DataFrame) (col : string) (w : W) :
  well_formed df -> data df <> [] ->
  detect_review_col (columns df) = Some col ->
  ~ In "rating" (columns df) ->
  app env p (Some df) true w = (Crashed (KeyError "rating"), w).
Proof.
  intros Hwf Hne Hdet Hno.
  destruct (data df) as [|r rest] eqn:Hd; [now elim Hne |].
  apply (app_first_row_raises env p df col w w (KeyError "rating") r rest Hd Hdet).
  apply analyze_row_without_rating.
  - rewrite (first_row_labels df r rest col Hwf Hd).
    apply contains_In. now apply detected_column_present.
  - rewrite (first_row_labels df r rest "rating" Hwf Hd).
    now apply contains_not_In.
Qed.

Lemma no_rating_column_stops_before_any_call_witness :
  well_formed no_rating /\ data no_rating <> [] /\
  detect_review_col (columns no_rating) = Some "review" /\
  ~ In "rating" (columns no_rating) /\
  app stub_env Posix (Some no_rating) true 0 = (Crashed (KeyError "rating"), 0).
Proof.
  assert (H1 : well_formed no_rating) by (repeat constructor).
  assert (H2 : data no_rating <> []) by discriminate.
  assert (H3 : detect_review_col (columns no_rating) = Some "review")
    by reflexivity.
  assert (H4 : ~ In "rating" (columns no_rating)).
  { simpl. intros [K|[K|[]]]; discriminate. }
  split; [exact H1 |]. split; [exact H2 |]. split; [exact H3 |].
  split; [exact H4 |].
  exact (no_rating_column_stops_before_any_call stub_env Posix no_rating
           "review" 0 H1 H2 H3 H4).
Defined.

(** X9: on a well-formed frame with at least one row that has a review
    column and rating but no product_name column, a click ends in a
    KeyError for product_name on the first row, after the service was
    called once, for that row: the reply is lost, and neither progress
    report nor pause follows. *)
Theorem no_product_name_column_wastes_one_call {W : Type} (env : Env W)
    (p : platform) (df : DataFrame) (col : string) (w : W)
    (r : list value) (rest : list (list value)) :
  well_formed df -> data df = r :: rest ->
  detect_review_col (columns df) = Some col ->
  In "rating" (columns df) -> ~ In "product_name" (columns df) ->
  app env p (Some df) true w
  = (Crashed (KeyError "product_name"),
     snd (generate_content env (prompt_text col (combine (columns df) r)) w)).
Proof.
  intros Hwf Hd Hdet Hr Hno.
  apply (app_first_row_raises env p df col w _ (KeyError "product_name") r rest
           Hd Hdet).
  apply analyze_row_without_product_name.
  - rewrite (first_row_labels df r rest col Hwf Hd).
    apply contains_In. now apply detected_column_present.
  - rewrite (first_row_labels df r rest "rating" Hwf Hd). now apply contains_In.
  - rewrite (first_row_labels df r rest "product_name" Hwf Hd).
    now apply contains_not_In.
Qed.

Lemma no_product_name_column_wastes_one_call_witness :
  well_formed no_product_name /\
  data no_product_name
  = [VStr "Great fit"; VInt 5] :: [[VStr "Too tight"; VInt 2]] /\
  detect_review_col (columns no_product_name) = Some "review" /\
  In "rating" (columns no_product_name) /\
  ~ In "product_name" (columns no_product_name) /\
  app stub_env Posix (Some no_product_name) true 0
  = (Crashed (KeyError "product_name"), 1).
Proof.
  assert (H1 : well_formed no_product_name) by (repeat constructor).
  assert (H2 : data no_product_name
               = [VStr "Great fit"; VInt 5] :: [[VStr "Too tight"; VInt 2]])
    by reflexivity.
  assert (H3 : detect_review_col (columns no_product_name) = Some "review")
    by reflexivity.
  assert (H4 : In "rating" (columns no_product_name)) by (simpl; auto).
  assert (H5 : ~ In "product_name" (columns no_product_name)).
  { simpl. intros [K|[K|[]]]; discriminate. }
  split; [exact H1 |]. split; [exact H2 |]. split; [exact H3 |].
  split; [exact H4 |]. split; [exact H5 |].
  exact (no_product_name_column_wastes_one_call stub_env Posix no_product_name
           "review" 0 _ _ H1 H2 H3 H4 H5).
Defined.

(** With a text label the row raises in the progress step, after the call
    and before the pause. *)
Lemma analyze_row_text_label {W : Type} (env : Env W) (col : string)
    (total : nat) (t : string) (row : Series) (results : list dict) (w : W) :
  complete col row = true ->
  analyze_row env col total (LStr t) row results w
  = (Raise TypeError, snd (generate_content env (prompt_text col row) w)).
Proof.
  intros H. destruct (complete_true _ _ H) as [Hc [Hp Hr]].
  unfold analyze_row, progress_step, bind, lift, act.
  rewrite (build_prompt_complete _ _ H).
  destruct (generate_content env (prompt_text col row) w) as [r w1]. simpl.
  now rewrite Hp, Hc, Hr.
Qed.

(** X10: on a well-formed frame with a review column, product_name and
    rating whose first index label is a text, the loop started by a click
    ends in TypeError on the first row, at [i + 1] of line 111: the
    service has been called once, the entry built is lost, and neither
    progress report nor pause follows. *)
Theorem text_label_stops_after_first_call {W : Type} (env : Env W)
    (df : DataFrame) (col t : string) (w : W)
    (r : list value) (rest : list (list value)) :
  well_formed df -> data df = r :: rest ->
  detect_review_col (columns df) = Some col ->
  In "product_name" (columns df) -> In "rating" (columns df) ->
  label_at (index df) 0 = LStr t ->
  analyze env col df w
  = (Raise TypeError,
     snd (generate_content env (prompt_text col (combine (columns df) r)) w)).
Proof.
  intros Hwf Hd Hdet Hp Hr Hl.
  assert (Hrow : analyze_row env col (len df) (label_at (index df) 0)
                   (combine (columns df) r) [] w
                 = (Raise TypeError,
                    snd (generate_content env
                           (prompt_text col (combine (columns df) r)) w))).
  { rewrite Hl. apply analyze_row_text_label. unfold complete.
    rewrite !(first_row_labels df r rest _ Hwf Hd).
    apply andb_true_iff. split; [apply andb_true_iff; split |];
      apply contains_In; trivial. now apply detected_column_present. }
  unfold analyze, iterrows. rewrite Hd. simpl.
  unfold bind at 1. now rewrite Hrow.
Qed.

Lemma text_label_stops_after_first_call_witness :
  well_formed labelled_shoes /\
  data labelled_shoes
  = [VStr "Shoe A"; VStr "Great fit"; VInt 5]
    :: [[VStr "Shoe B"; VStr "Too tight"; VInt 2]] /\
  detect_review_col (columns labelled_shoes) = Some "review_text" /\
  In "product_name" (columns labelled_shoes) /\
  In "rating" (columns labelled_shoes) /\
  label_at (index labelled_shoes) 0 = LStr "a" /\
  analyze stub_env "review_text" labelled_shoes 0 = (Raise TypeError, 1).
Proof.
  assert (H1 : well_formed labelled_shoes) by (repeat constructor).
  assert (H2 : data labelled_shoes
               = [VStr "Shoe A"; VStr "Great fit"; VInt 5]
                 :: [[VStr "Shoe B"; VStr "Too tight"; VInt 2]]) by reflexivity.
  assert (H3 : detect_review_col (columns labelled_shoes) = Some "review_text")
    by reflexivity.
  assert (H4 : In "product_name" (columns labelled_shoes)) by (simpl; auto).
  assert (H5 : In "rating" (columns labelled_shoes)) by (simpl; auto).
  assert (H6 : label_at (index labelled_shoes) 0 = LStr "a") by reflexivity.
  split; [exact H1 |]. split; [exact H2 |]. split; [exact H3 |].
  split; [exact H4 |]. split; [exact H5 |]. split; [exact H6 |].
  exact (text_label_stops_after_first_call stub_env labelled_shoes
           "review_text" "a" 0 _ _ H1 H2 H3 H4 H5 H6).
Defined.

(** ** Runs that end normally *)

(** X11: whatever the rows and the service are, when the loop ends
    normally every row had the resolved column, product_name and rating,
    and the list returned is the list the loop started from followed by
    one new entry per row: entries already built are neither dropped nor
    changed. *)
Theorem normal_end_appends_one_entry_per_row {W : Type} (env : Env W)
    (col : string) (total : nat) (rows : list (label * Series))
    (acc res : list dict) (w w' : W) :
  analyze_rows env col total rows acc w = (Ok res, w') ->
  Forall (fun ir => complete col (snd ir) = true) rows /\
  exists new, res = (acc ++ new)%list /\ List.length new = List.length rows.
Proof.
  revert acc w. induction rows as [|[i row] rest IH]; intros acc w; simpl.
  - unfold ret. intros [= <- _]. split; [constructor |].
    exists []. now rewrite app_nil_r.
  - unfold bind at 1.
    destruct (analyze_row_cases env col total i row acc w)
      as [[Hc [_ [d [w1 Hrun]]]] | [[_ [k [w1 [Hrun _]]]]
         | [_ [_ [e [w1 [Hrun _]]]]]]]; rewrite Hrun;
      [| discriminate | discriminate].
    intros Hrest. destruct (IH _ _ Hrest) as [Hall [new [-> Hlen]]].
    split; [now constructor |].
    exists (d :: new). rewrite <- app_assoc. split; [reflexivity |].
    simpl. now rewrite Hlen.
Qed.

Lemma normal_end_appends_one_entry_per_row_witness :
  analyze_rows stub_env "review_text" 2 (iterrows shoes) [] 0
  = (Ok [entry (VStr "Shoe A") (VStr "Great fit") (VInt 5) stub_text;
         entry (VStr "Shoe B") (VStr "Too tight") (VInt 2)
               "Error: Could not analyze review. (timeout)"], 2) /\
  Forall (fun ir => complete "review_text" (snd ir) = true) (iterrows shoes).
Proof.
  assert (H : analyze_rows stub_env "review_text" 2 (iterrows shoes) [] 0
    = (Ok [entry (VStr "Shoe A") (VStr "Great fit") (VInt 5) stub_text;
           entry (VStr "Shoe B") (VStr "Too tight") (VInt 2)
                 "Error: Could not analyze review. (timeout)"], 2))
    by reflexivity.
  split; [exact H |].
  exact (proj1 (normal_end_appends_one_entry_per_row _ _ _ _ _ _ _ _ H)).
Defined.

(** ** Whitespace at the ends *)

(** X12: the trimming of the reply leaves a text that neither begins nor
    ends with a whitespace character (one-byte, or one of the two-byte and
    three-byte Unicode spaces), and trimming it again changes nothing. *)
Theorem strip_leaves_no_outer_space (text : string) :
  outer_space (strip text) = false /\ strip (strip text) = strip text.
Proof.
  split; [apply outer_space_strip |]. apply strip_fixed, outer_space_strip.
Qed.

(** X13: the trimming changes a text exactly when the text begins or ends
    with a whitespace character. *)
Theorem strip_changes_only_outer_space (text : string) :
  strip text = text <-> outer_space text = false.
Proof.
  split; [| apply strip_fixed].
  intros H. rewrite <- H. apply outer_space_strip.
Qed.

(** ** A failure and a success that look alike *)

Lemma list_ascii_of_string_app (a b : string) :
  list_ascii_of_string (a ++ b)
  = (list_ascii_of_string a ++ list_ascii_of_string b)%list.
Proof. induction a as [|x a IH]; simpl; [reflexivity | now rewrite IH]. Qed.

(** A text that ends with a closing parenthesis does not end with
    whitespace. *)
Lemma ends_with_paren_clean (x : list ascii) :
  starts_with_space (fun b a => space2 a b) (fun c b a => space3 a b c)
    (")"%char :: x) = false.
Proof.
  destruct x as [|b [|c x]]; simpl; trivial.
  - unfold space2. simpl. now rewrite andb_false_r.
  - unfold space2, space3. simpl. now rewrite !andb_false_r.
Qed.

Lemma error_text_has_no_outer_space (detail : string) :
  outer_space (error_prefix ++ " (" ++ detail ++ ")") = false.
Proof.
  unfold outer_space. apply orb_false_iff. split; [reflexivity |].
  replace (error_prefix ++ " (" ++ detail ++ ")")
    with ((error_prefix ++ " (" ++ detail) ++ ")")
    by (now rewrite !append_assoc).
  rewrite list_ascii_of_string_app, rev_app_distr. simpl rev at 1.
  apply ends_with_paren_clean.
Qed.

(** X14: a reply whose text is the error text of a failure gives the same
    analysis as that failure: the analysis alone does not tell a row whose
    call raised from a row whose call answered. *)
Theorem error_text_is_not_a_proof_of_failure (detail : string) :
  analysis_of (Text ("Error: Could not analyze review. (" ++ detail ++ ")"))
  = analysis_of (Raises detail).
Proof.
  unfold analysis_of.
  change ("Error: Could not analyze review. (" ++ detail ++ ")")
    with (error_prefix ++ " (" ++ detail ++ ")").
  apply strip_fixed, error_text_has_no_outer_space.
Qed.

(** ** Frames written and read back *)



(** A line made of one blank field is passed over by the reader: the frame
    with the one column review and the one cell " " reads back as its
    header alone. *)
Lemma blank_row_is_skipped :
  read_records
    (to_csv Posix {| columns := ["review"]; index := RangeIndex;
                     data := [[VStr " "]] |})
  = [["review"]].
Proof. reflexivity. Qed.

Lemma encode_utf8_injective (a b : string) :
  encode_utf8 a = encode_utf8 b -> a = b.
Proof.
  unfold encode_utf8. intros H.
  rewrite <- (string_of_list_byte_of_string a), H.
  apply string_of_list_byte_of_string.
Qed.

(** X16: two sequences of entries, neither empty, that give the same bytes
    to download have the same number of entries and, entry by entry, the
    same texts in the four cells of the result table, where an integer of
    a column typed as float is written as a float (with the proviso on
    carriage returns where lines end with a bare LF, and integers of at
    most 2^53 in absolute value). *)
Theorem same_download_same_texts (p : platform) (results1 results2 : list dict) :
  results1 <> [] -> Forall is_entry results1 -> Forall (readable p) results1 ->
  Forall small_ints results1 ->
  results2 <> [] -> Forall is_entry results2 -> Forall (readable p) results2 ->
  Forall small_ints results2 ->
  assemble p results1 = assemble p results2 ->
  table_texts results1 = table_texts results2 /\
  List.length results1 = List.length results2.
Proof.
  intros N1 E1 R1 _ N2 E2 R2 _ H. unfold assemble in H.
  apply encode_utf8_injective in H.
  pose proof (read_records_to_csv p results1 N1 E1 R1) as P1.
  pose proof (read_records_to_csv p results2 N2 E2 R2) as P2.
  rewrite H, P2 in P1. injection P1 as P1.
  split; [now symmetry |].
  assert (L : forall r, r <> [] -> Forall is_entry r ->
                        List.length (table_texts r) = List.length r).
  { intros r N E. rewrite (table_texts_entries r N E). apply length_map. }
  rewrite <- (L results1 N1 E1), <- (L results2 N2 E2).
  now rewrite P1.
Qed.

Lemma same_download_same_texts_witness :
  [entry (VStr "Shoe A") (VStr "Great fit") (VInt 5) "fine";
   entry (VStr "Shoe B") (VStr "Too tight") (VFloat "4.5") "poor"] <> [] /\
  [entry (VStr "Shoe A") (VStr "Great fit") (VFloat "5.0") "fine";
   entry (VStr "Shoe B") (VStr "Too tight") (VFloat "4.5") "poor"] <> [] /\
  table_texts
    [entry (VStr "Shoe A") (VStr "Great fit") (VInt 5) "fine";
     entry (VStr "Shoe B") (VStr "Too tight") (VFloat "4.5") "poor"]
  = table_texts
    [entry (VStr "Shoe A") (VStr "Great fit") (VFloat "5.0") "fine";
     entry (VStr "Shoe B") (VStr "Too tight") (VFloat "4.5") "poor"] /\
  table_texts
    [entry (VStr "Shoe A") (VStr "Great fit") (VInt 5) "fine";
     entry (VStr "Shoe B") (VStr "Too tight") (VFloat "4.5") "poor"]
  = [["Shoe A"; "Great fit"; "5.0"; "fine"];
     ["Shoe B"; "Too tight"; "4.5"; "poor"]].
Proof.
  assert (N1 : [entry (VStr "Shoe A") (VStr "Great fit") (VInt 5) "fine";
                entry (VStr "Shoe B") (VStr "Too tight") (VFloat "4.5") "poor"]
               <> []) by discriminate.
  assert (N2 : [entry (VStr "Shoe A") (VStr "Great fit") (VFloat "5.0") "fine";
                entry (VStr "Shoe B") (VStr "Too tight") (VFloat "4.5") "poor"]
               <> []) by discriminate.
  assert (E1 : Forall is_entry
            [entry (VStr "Shoe A") (VStr "Great fit") (VInt 5) "fine";
             entry (VStr "Shoe B") (VStr "Too tight") (VFloat "4.5") "poor"]).
  { repeat constructor.
    - now exists (VStr "Shoe A"), (VStr "Great fit"), (VInt 5), "fine".
    - now exists (VStr "Shoe B"), (VStr "Too tight"), (VFloat "4.5"), "poor". }
  assert (E2 : Forall is_entry
            [entry (VStr "Shoe A") (VStr "Great fit") (VFloat "5.0") "fine";
             entry (VStr "Shoe B") (VStr "Too tight") (VFloat "4.5") "poor"]).
  { repeat constructor.
    - now exists (VStr "Shoe A"), (VStr "Great fit"), (VFloat "5.0"), "fine".
    - now exists (VStr "Shoe B"), (VStr "Too tight"), (VFloat "4.5"), "poor". }
  assert (R1 : Forall (readable Posix)
            [entry (VStr "Shoe A") (VStr "Great fit") (VInt 5) "fine";
             entry (VStr "Shoe B") (VStr "Too tight") (VFloat "4.5") "poor"])
    by (repeat constructor).
  assert (R2 : Forall (readable Posix)
            [entry (VStr "Shoe A") (VStr "Great fit") (VFloat "5.0") "fine";
             entry (VStr "Shoe B") (VStr "Too tight") (VFloat "4.5") "poor"])
    by (repeat constructor).
  assert (S1 : Forall small_ints
            [entry (VStr "Shoe A") (VStr "Great fit") (VInt 5) "fine";
             entry (VStr "Shoe B") (VStr "Too tight") (VFloat "4.5") "poor"])
    by (repeat constructor; simpl; lia).
  assert (S2 : Forall small_ints
            [entry (VStr "Shoe A") (VStr "Great fit") (VFloat "5.0") "fine";
             entry (VStr "Shoe B") (VStr "Too tight") (VFloat "4.5") "poor"])
    by (repeat constructor; simpl; lia).
  assert (H : assemble Posix
            [entry (VStr "Shoe A") (VStr "Great fit") (VInt 5) "fine";
             entry (VStr "Shoe B") (VStr "Too tight") (VFloat "4.5") "poor"]
          = assemble Posix
            [entry (VStr "Shoe A") (VStr "Great fit") (VFloat "5.0") "fine";
             entry (VStr "Shoe B") (VStr "Too tight") (VFloat "4.5") "poor"])
    by reflexivity.
  split; [exact N1 |]. split; [exact N2 |].
  split; [| reflexivity].
  exact (proj1 (same_download_same_texts Posix _ _ N1 E1 R1 S1 N2 E2 R2 S2 H)).
Defined.



(** ** Blank replies *)

Lemma lstrip_with_blank s2 s3 (l : list ascii) :
  forallb space1 l = true -> lstrip_with s2 s3 l = [].
Proof.
  induction l as [|a l IH]; [reflexivity |]. cbn [forallb lstrip_with].
  intros H. apply andb_true_iff in H as [Ha Hl]. rewrite Ha. now apply IH.
Qed.

Lemma forallb_list_ascii (f : ascii -> bool) (s : string) :
  forallb f (list_ascii_of_string s) = string_forall f s.
Proof. induction s as [|c s IH]; simpl; [reflexivity | now rewrite IH]. Qed.

(** X18: a reply made only of one-byte whitespace (spaces, tabs, line
    ends), the empty reply included, is not treated as a failure: its
    analysis is the empty text. *)
Theorem blank_reply_gives_empty_analysis (text : string) :
  string_forall space1 text = true ->
  analysis_of (Text text) = "".
Proof.
  intros H. unfold analysis_of, strip, lstrip_bytes.
  rewrite lstrip_with_blank; [reflexivity |].
  now rewrite forallb_list_ascii.
Qed.

Lemma blank_reply_gives_empty_analysis_witness :
  string_forall space1 ("  " ++ nl) = true /\
  analysis_of (Text ("  " ++ nl)) = "".
Proof.
  assert (H : string_forall space1 ("  " ++ nl) = true) by reflexivity.
  split; [exact H |].
  exact (blank_reply_gives_empty_analysis _ H).
Defined.
